(** * Uriscan inference dashboard: embedding and verification

    The dashboard is a Streamlit front end over a remote inference API.
    This development embeds, as executable Rocq functions, the parts of the
    program that shape data: the formatting utilities
    ([frontend/utils/formatting.py]), the API client
    ([frontend/utils/api_client.py]), the row shaping of the legacy single page
    app ([app.py]), of the inference page ([frontend/pages/inference.py]), of
    the detail view ([frontend/components/detail_view.py]) and of the detail
    export ([frontend/pages/detail.py]), the cell style of the submissions
    table ([frontend/components/tables.py]) and the selector and run button
    of the legacy page.

    Python values are modelled as trees ([Py.value]); a Python [float] is an
    IEEE binary64 number ([spec_float] with precision 53); exceptions are the
    second constructor of [Py.result]; the network is an oracle from requests
    to outcomes. *)

From Stdlib Require Import ZArith QArith Qpower List String Ascii Bool Lia.
From Stdlib Require Import DecimalString SpecFloat.
From stdpp Require Import base option gmap strings.
Import ListNotations.

#[local] Set Warnings "-register-all".
#[local] Open Scope Z_scope.
#[local] Open Scope string_scope.

(* ===================================================================== *)
(** * Part I: the embedding *)
(* ===================================================================== *)

(** ** Python values, exceptions and results *)

Module Py.

(** A JSON document as Python sees it after [response.json()]: [None],
    [bool], [int], [float], [str], [list] and [dict] (keys are strings;
    insertion order is kept, as in Python 3.7+). *)
Inductive value : Type :=
| VNone
| VBool (b : bool)
| VInt (z : Z)
| VFloat (f : spec_float)
| VStr (s : string)
| VList (items : list value)
| VDict (entries : list (string * value)).

(** The exception classes the program can meet.  [RequestException] and its
    children belong to the [requests] library. *)
Inductive exn_class : Type :=
| Exception
| TypeError
| KeyError
| AttributeError
| ValueError
| OverflowError
| RequestException
| HTTPError
| ConnectionError
| Timeout
| InvalidURL
| JSONDecodeError.

Definition exn_class_eqb (a b : exn_class) : bool :=
  match a, b with
  | Exception, Exception | TypeError, TypeError | KeyError, KeyError
  | AttributeError, AttributeError | ValueError, ValueError
  | OverflowError, OverflowError | RequestException, RequestException
  | HTTPError, HTTPError | ConnectionError, ConnectionError
  | Timeout, Timeout | InvalidURL, InvalidURL
  | JSONDecodeError, JSONDecodeError => true
  | _, _ => false
  end.

(** [issubclass c base].  In [requests], [InvalidURL] and [JSONDecodeError]
    also inherit from the builtin [ValueError]. *)
Definition subclass (c base : exn_class) : bool :=
  match base with
  | Exception => true
  | RequestException =>
      match c with
      | RequestException | HTTPError | ConnectionError | Timeout
      | InvalidURL | JSONDecodeError => true
      | _ => false
      end
  | ValueError =>
      match c with
      | ValueError | InvalidURL | JSONDecodeError => true
      | _ => false
      end
  | _ => exn_class_eqb c base
  end.

(** An HTTP response: status line, final URL and the body parsed as JSON
    ([None] when the body is not valid JSON). *)
Record response : Type := Response {
  status_code : Z;
  reason : string;
  url : string;
  json_body : option value
}.

(** An exception object: its class, [str(e)], and for an [HTTPError] the
    response attached to it ([e.response]). *)
Record exn : Type := Exn {
  exn_cls : exn_class;
  exn_str : string;
  exn_response : option response
}.

Definition mk_exn (c : exn_class) (msg : string) : exn := Exn c msg None.

Definition isinstance (e : exn) (base : exn_class) : bool :=
  subclass (exn_cls e) base.

(** The outcome of running a piece of Python: a value or a raised
    exception. *)
Inductive result (A : Type) : Type :=
| Ok (a : A)
| Raise (e : exn).
Arguments Ok {A} a.
Arguments Raise {A} e.

#[export] Instance result_ret : MRet result := fun A a => Ok a.
#[export] Instance result_bind : MBind result :=
  fun A B k r => match r with Ok a => k a | Raise e => Raise e end.

Definition raise {A} (c : exn_class) (msg : string) : result A :=
  Raise (mk_exn c msg).

(** [try: body except C1 as e: h1 ... except Cn as e: hn].  The first clause
    whose class the exception is an instance of handles it; an exception
    raised by a handler is not offered to the later clauses. *)
Fixpoint dispatch {A} (e : exn) (handlers : list (exn_class * (exn -> result A)))
  : result A :=
  match handlers with
  | [] => Raise e
  | (c, h) :: rest => if isinstance e c then h e else dispatch e rest
  end.

Definition try_except {A} (body : result A)
    (handlers : list (exn_class * (exn -> result A))) : result A :=
  match body with
  | Ok a => Ok a
  | Raise e => dispatch e handlers
  end.

(** *** Truth value, identity and equality tests *)

Definition float_is_zero (f : spec_float) : bool :=
  match f with S754_zero _ => true | _ => false end.

Definition float_is_nan (f : spec_float) : bool :=
  match f with S754_nan => true | _ => false end.

(** [bool(v)] *)
Definition truthy (v : value) : bool :=
  match v with
  | VNone => false
  | VBool b => b
  | VInt z => negb (z =? 0)%Z
  | VFloat f => negb (float_is_zero f)
  | VStr s => negb (String.eqb s "")
  | VList l => match l with [] => false | _ => true end
  | VDict d => match d with [] => false | _ => true end
  end.

(** [v is True], [v is False], [v is None] *)
Definition is_True (v : value) : bool :=
  match v with VBool true => true | _ => false end.
Definition is_False (v : value) : bool :=
  match v with VBool false => true | _ => false end.
Definition is_None (v : value) : bool :=
  match v with VNone => true | _ => false end.

(** [v == s] for a string literal [s]: only a [str] can equal a [str]. *)
Definition eq_str (v : value) (s : string) : bool :=
  match v with VStr t => String.eqb t s | _ => false end.

(** [a or b] *)
Definition py_or (a b : value) : value := if truthy a then a else b.

Definition type_name (v : value) : string :=
  match v with
  | VNone => "NoneType" | VBool _ => "bool" | VInt _ => "int"
  | VFloat _ => "float" | VStr _ => "str" | VList _ => "list"
  | VDict _ => "dict"
  end.

(** *** Dictionaries and iteration *)

Fixpoint lookup_key (k : string) (d : list (string * value)) : option value :=
  match d with
  | [] => None
  | (k', v) :: rest => if String.eqb k' k then Some v else lookup_key k rest
  end.

(** [v[k]] for a string key [k] *)
Definition getitem (v : value) (k : string) : result value :=
  match v with
  | VDict d =>
      match lookup_key k d with
      | Some x => Ok x
      | None => raise KeyError ("'" ++ k ++ "'")
      end
  | VList _ => raise TypeError "list indices must be integers or slices, not str"
  | VStr _ => raise TypeError "string indices must be integers, not 'str'"
  | _ => raise TypeError ("'" ++ type_name v ++ "' object is not subscriptable")
  end.

(** [v.get(k, default)] *)
Definition get (v : value) (k : string) (dflt : value) : result value :=
  match v with
  | VDict d => Ok (default dflt (lookup_key k d))
  | _ => raise AttributeError
           ("'" ++ type_name v ++ "' object has no attribute 'get'")
  end.

Fixpoint chars_of (s : string) : list value :=
  match s with
  | EmptyString => []
  | String c rest => VStr (String c EmptyString) :: chars_of rest
  end.

(** The sequence a [for] loop walks through: the items of a list, the keys
    of a dict, the characters of a string (byte-wise here). *)
Definition iterate (v : value) : result (list value) :=
  match v with
  | VList l => Ok l
  | VDict d => Ok (map (fun kv => VStr (fst kv)) d)
  | VStr s => Ok (chars_of s)
  | _ => raise TypeError ("'" ++ type_name v ++ "' object is not iterable")
  end.

(** Run [body] on each element in order, stopping at the first exception,
    and collect what it produced: the shape of every
    [for x in xs: rows.append(f(x))] loop of the program. *)
Fixpoint for_each {A B} (body : A -> result B) (xs : list A) : result (list B) :=
  match xs with
  | [] => Ok []
  | x :: rest =>
      match body x with
      | Ok y =>
          match for_each body rest with
          | Ok ys => Ok (y :: ys)
          | Raise e => Raise e
          end
      | Raise e => Raise e
      end
  end.

End Py.

(** ** Python floats: reading, comparing and printing binary64 numbers *)

Module PyFloat.

#[local] Open Scope Z_scope.

Definition prec : Z := 53.
Definition emax : Z := 1024.

(** [float(z)]: the binary64 number nearest to the integer [z] (ties to
    even), an infinity when [z] is out of range. *)
Definition of_Z (z : Z) : spec_float := binary_normalize prec emax z 0 false.

(** The float a decimal literal [num / 10^k] denotes, for a numerator and a
    power of ten that are themselves floats: correctly rounded division
    gives the nearest binary64 number, which is what the JSON reader
    produces for the literal. *)
Definition of_decimal (num : Z) (k : nat) : spec_float :=
  SFdiv prec emax (of_Z num) (of_Z (10 ^ Z.of_nat k)).

(** [a >= b], [a < b] on floats; every comparison with a NaN is false. *)
Definition ge (a b : spec_float) : bool := SFleb b a.
Definition lt (a b : spec_float) : bool := SFltb a b.

(** *** Decimal digits *)

Definition dec (z : Z) : string := NilZero.string_of_uint (N.to_uint (Z.to_N z)).

Fixpoint zeros (n : nat) : string :=
  match n with O => "" | S n' => String "0" (zeros n') end.

Definition pad_left (n : nat) (s : string) : string :=
  zeros (n - String.length s) ++ s.

Definition sign_str (s : bool) : string := if s then "-" else "".

(** The integer nearest to [a / b] for [b > 0], ties to the even one. *)
Definition round_half_even (a b : Z) : Z :=
  let q := a / b in
  let r := a mod b in
  match 2 * r ?= b with
  | Lt => q
  | Gt => q + 1
  | Eq => if Z.even q then q else q + 1
  end.

(** [m * 2^e * 10^s] rounded to the nearest integer, ties to even. *)
Definition round_scaled (m : positive) (e s : Z) : Z :=
  round_half_even (Zpos m * 2 ^ Z.max e 0 * 10 ^ Z.max s 0)
                  (2 ^ Z.max (- e) 0 * 10 ^ Z.max (- s) 0).

(** *** [format(x, '.nf')] *)

Definition fixed_digits (n : nat) (scaled : Z) : string :=
  let p := 10 ^ Z.of_nat n in
  dec (scaled / p) ++
  match n with
  | O => ""
  | _ => "." ++ pad_left n (dec (scaled mod p))
  end.

(** Fixed-point notation with [n] digits after the point.  CPython rounds
    the exact binary value correctly (ties to even) and keeps the sign of
    a negative number that rounds to zero. *)
Definition format_f (n : nat) (x : spec_float) : string :=
  match x with
  | S754_nan => "nan"
  | S754_infinity s => sign_str s ++ "inf"
  | S754_zero s => sign_str s ++ fixed_digits n 0
  | S754_finite s m e => sign_str s ++ fixed_digits n (round_scaled m e (Z.of_nat n))
  end.

(** *** [repr(x)] / [str(x)]: the shortest digits that read back as [x] *)

(** Compare [a * 10^p] with [b * 2^q]. *)
Definition cmp_scaled (a p b q : Z) : comparison :=
  (a * 10 ^ Z.max p 0 * 2 ^ Z.max (- q) 0) ?= (b * 2 ^ Z.max q 0 * 10 ^ Z.max (- p) 0).

(** [floor (log10 (m * 2^e))] *)
Definition floor_log10 (m : positive) (e : Z) : Z :=
  let est := ((Z.log2 (Zpos m) + e) * 30103) / 100000 in
  match cmp_scaled 1 est (Zpos m) e with
  | Gt => est - 1
  | _ => match cmp_scaled 1 (est + 1) (Zpos m) e with
         | Gt => est
         | _ => est + 1
         end
  end.

(** Does the decimal [d * 10^(-s)] round to the float [m * 2^e]?  It does
    when it lies between the midpoints to the two neighbouring floats, the
    midpoints included when [m] is even.  Below a power of two the lower
    neighbour is half as far away. *)
Definition reads_back (m : positive) (e : Z) (d s : Z) : bool :=
  let m' := Zpos m in
  let below_upper :=
    match cmp_scaled d (- s) (2 * m' + 1) (e - 1) with
    | Lt => true | Eq => Z.even m' | Gt => false
    end in
  let above_lower :=
    if (m' =? 2 ^ (prec - 1))%Z && (3 - emax - prec <? e)%Z
    then match cmp_scaled d (- s) (4 * m' - 1) (e - 2) with
         | Gt => true | Eq => Z.even m' | Lt => false
         end
    else match cmp_scaled d (- s) (2 * m' - 1) (e - 1) with
         | Gt => true | Eq => Z.even m' | Lt => false
         end in
  below_upper && above_lower.

(** Try 1, 2, ... significant digits; 17 always suffice. *)
Fixpoint shortest (fuel : nat) (m : positive) (e e10 k : Z) : Z * Z :=
  let s := k - 1 - e10 in
  let d := round_scaled m e s in
  match fuel with
  | O => (d, s)
  | S fuel' => if reads_back m e d s then (d, s) else shortest fuel' m e e10 (k + 1)
  end.

Fixpoint strip_zeros_rev (l : list ascii) : list ascii :=
  match l with
  | "0"%char :: rest => strip_zeros_rev rest
  | _ => l
  end.

Definition strip_trailing_zeros (s : string) : string :=
  string_of_list_ascii (rev (strip_zeros_rev (rev (list_ascii_of_string s)))).

(** Lay out the digit string [digits], read as [0.digits * 10^decpt]. *)
Definition layout (digits : string) (decpt : Z) : string :=
  let n := Z.of_nat (String.length digits) in
  if (decpt <=? -4)%Z || (16 <? decpt)%Z then
    let ex := decpt - 1 in
    let mant :=
      String.substring 0 1 digits ++
      (if (1 <? n)%Z then "." ++ String.substring 1 (String.length digits - 1) digits
       else "") in
    mant ++ "e" ++ (if (ex <? 0)%Z then "-" else "+") ++ pad_left 2 (dec (Z.abs ex))
  else if (decpt <=? 0)%Z then
    "0." ++ zeros (Z.to_nat (- decpt)) ++ digits
  else if (n <=? decpt)%Z then
    digits ++ zeros (Z.to_nat (decpt - n)) ++ ".0"
  else
    String.substring 0 (Z.to_nat decpt) digits ++ "." ++
    String.substring (Z.to_nat decpt) (Z.to_nat (n - decpt)) digits.

Definition repr (x : spec_float) : string :=
  match x with
  | S754_nan => "nan"
  | S754_infinity s => sign_str s ++ "inf"
  | S754_zero s => sign_str s ++ "0.0"
  | S754_finite s m e =>
      let '(d, sc) := shortest 16 m e (floor_log10 m e) 1 in
      let all := dec d in
      sign_str s ++
      layout (strip_trailing_zeros all) (Z.of_nat (String.length all) - sc)
  end.

End PyFloat.

(** ** Builtin operations of Python used by the program *)

Module Builtins.
Import Py.

Definition int_format_f (n : nat) (z : Z) : result string :=
  match PyFloat.of_Z z with
  | S754_infinity _ => raise OverflowError "int too large to convert to float"
  | f => Ok (PyFloat.format_f n f)
  end.

(** [format(v, '.nf')], the conversion behind [f"{v:.nf}"] and
    ['{:.nf}'.format(v)].  An [int] (and a [bool], which is an [int]) is
    converted to [float] first. *)
Definition format_spec_f (n : nat) (v : value) : result string :=
  match v with
  | VFloat f => Ok (PyFloat.format_f n f)
  | VInt z => int_format_f n z
  | VBool b => int_format_f n (Z.b2z b)
  | VStr _ => raise ValueError "Unknown format code 'f' for object of type 'str'"
  | _ => raise TypeError
           ("unsupported format string passed to " ++ type_name v ++ ".__format__")
  end.

(** [v >= k] for an integer literal [k] that is exactly a float (80 and 50
    in the program). *)
Definition ge_int (v : value) (k : Z) : result bool :=
  match v with
  | VInt z => Ok (k <=? z)%Z
  | VBool b => Ok (k <=? Z.b2z b)%Z
  | VFloat f => Ok (PyFloat.ge f (PyFloat.of_Z k))
  | _ => raise TypeError
           ("'>=' not supported between instances of '" ++ type_name v ++ "' and 'int'")
  end.

Definition upper_char (c : ascii) : ascii :=
  let n := nat_of_ascii c in
  if (97 <=? n)%nat && (n <=? 122)%nat then ascii_of_nat (n - 32) else c.

(** [s.upper()] on ASCII text; other bytes are kept as they are. *)
Fixpoint upper (s : string) : string :=
  match s with
  | EmptyString => EmptyString
  | String c rest => String (upper_char c) (upper rest)
  end.

(** [v.upper()] *)
Definition call_upper (v : value) : result value :=
  match v with
  | VStr s => Ok (VStr (upper s))
  | _ => raise AttributeError
           ("'" ++ type_name v ++ "' object has no attribute 'upper'")
  end.

Fixpoint lstrip_char (c : ascii) (l : list ascii) : list ascii :=
  match l with
  | x :: rest => if Ascii.eqb x c then lstrip_char c rest else l
  | [] => []
  end.

(** [s.rstrip(c)] for a single character [c] *)
Definition rstrip (c : ascii) (s : string) : string :=
  string_of_list_ascii (rev (lstrip_char c (rev (list_ascii_of_string s)))).

(** [str(z)] for an integer *)
Definition str_int (z : Z) : string :=
  if (z <? 0)%Z then "-" ++ PyFloat.dec (- z) else PyFloat.dec z.

(** [k in v] for a string [k] *)
Definition contains (k : string) (v : value) : result bool :=
  match v with
  | VDict d => Ok (bool_decide (is_Some (lookup_key k d)))
  | VList l => Ok (existsb (fun x => eq_str x k) l)
  | VStr s => Ok (bool_decide (is_Some (String.index 0 k s)))
  | _ => raise TypeError ("argument of type '" ++ type_name v ++ "' is not iterable")
  end.

End Builtins.

(** ** Tables: the rows handed to [pandas.DataFrame], their display and CSV *)

Module Table.
Import Py.

(** A row is the dict literal the program builds: column name to cell, in
    the order written. *)
Definition row : Type := list (string * value).
Definition dataframe : Type := list row.

Definition cell (r : row) (column : string) : option value := lookup_key column r.

(** The text a cell shows on screen when no formatter is attached to its
    column.  Only text cells are covered: how the grid widget prints a raw
    number is outside the program. *)
Definition shown_text (v : value) : option string :=
  match v with VStr s => Some s | _ => None end.

(** The text a [Styler.format] entry ['{:.nf}' + suffix] makes of the
    cell it is handed: [('{:.nf}' + suffix).format(v)].  What it is handed
    is the cell as the frame holds it, see [DataFrame] below. *)
Definition styled_text (n : nat) (suffix : string) (v : value) : result string :=
  s ← Builtins.format_spec_f n v; Ok (s ++ suffix).

(** *** [DataFrame.to_csv(index=False)] *)

Definition dquote : ascii := ascii_of_nat 34.

Definition special (c : ascii) : bool :=
  Ascii.eqb c ","%char || Ascii.eqb c dquote
  || Ascii.eqb c (ascii_of_nat 10) || Ascii.eqb c (ascii_of_nat 13).

Fixpoint needs_quotes (s : string) : bool :=
  match s with
  | EmptyString => false
  | String c rest => special c || needs_quotes rest
  end.

Fixpoint double_quotes (s : string) : string :=
  match s with
  | EmptyString => EmptyString
  | String c rest =>
      if Ascii.eqb c dquote then String c (String c (double_quotes rest))
      else String c (double_quotes rest)
  end.

(** Minimal quoting: a field is quoted only when it holds a comma, a
    quote or a line break. *)
Definition csv_text (s : string) : string :=
  if needs_quotes s
  then String dquote (double_quotes s) ++ String dquote EmptyString
  else s.

Definition numeric_or_missing (v : value) : bool :=
  match v with VInt _ | VFloat _ | VNone => true | _ => false end.

Definition float_or_missing (v : value) : bool :=
  match v with VFloat _ | VNone => true | _ => false end.

Definition as_float (v : value) : value :=
  match v with
  | VInt z => VFloat (PyFloat.of_Z z)
  | VNone => VFloat S754_nan
  | _ => v
  end.

(** Column type inference of [pandas.DataFrame]: a column of numbers in
    which a float or a missing value occurs becomes a float column. *)
Definition infer_column (cells : list value) : list value :=
  if forallb numeric_or_missing cells && existsb float_or_missing cells
  then map as_float cells
  else cells.

(** One CSV field.  Missing values are written as the empty field, floats
    by their shortest representation.  Lists and dicts are not covered. *)
Definition csv_field (v : value) : option string :=
  match v with
  | VNone => Some ""
  | VBool b => Some (if b then "True" else "False")
  | VInt z => Some (Builtins.str_int z)
  | VFloat f => Some (if float_is_nan f then "" else PyFloat.repr f)
  | VStr s => Some (csv_text s)
  | _ => None
  end.

(** The CSV text of one column: its fields after type inference. *)
Definition csv_column (cells : list value) : list (option string) :=
  map csv_field (infer_column cells).

(** The cells of column [c], row by row; a row without the key gives a
    missing value. *)
Definition column_of (df : dataframe) (c : string) : list value :=
  map (fun r => default VNone (cell r c)) df.

Definition columns (df : dataframe) : list string :=
  match df with
  | [] => []
  | r :: _ => map fst r
  end.

(** *** [pandas.DataFrame(rows)]: how a column is held *)

Definition int64 (z : Z) : bool := (- 2 ^ 63 <=? z)%Z && (z <? 2 ^ 63)%Z.

Definition is_number (v : value) : bool :=
  match v with
  | VInt z => int64 z
  | VFloat _ => true
  | _ => false
  end.

(** A column in which every cell is a number or missing, and at least one
    is a number, is held as a numeric column: its missing cells become
    NaN.  Any other column (a text or a [bool] among its cells, or no
    number at all) is held as a column of objects and keeps each cell as
    it was given, [None] included.  Not written out: an [int] of a float
    column becomes the float of the same value, which the formatters and
    the comparisons of the program do not tell apart; and an [int] beyond
    64 bits makes the column one of objects here, where pandas decides by
    what it has seen before that cell. *)
Definition held_column (cells : list value) : list value :=
  if forallb (fun v => is_number v || is_None v) cells && existsb is_number cells
  then map (fun v => if is_None v then VFloat S754_nan else v) cells
  else cells.

(** Row [i] of the frame built from [rows]: each cell as its column holds
    it. *)
Definition held_row (rows : list row) (i : nat) (r : row) : row :=
  map (fun kv => (fst kv, nth i (held_column (column_of rows (fst kv))) (snd kv))) r.

(** The frame of rows that one dict literal built (the same keys in every
    row). *)
Definition DataFrame (rows : list row) : dataframe := imap (held_row rows) rows.

End Table.

(** ** [frontend/utils/formatting.py] *)

Module Formatting.
Import Py.

Definition format_percentage (value : Py.value) (decimals : nat) : result string :=
  if is_None value then Ok "N/A"
  else s ← Builtins.format_spec_f decimals value; Ok (s ++ "%").

Definition get_agreement_indicator (agreement_pct : value) : result string :=
  high ← Builtins.ge_int agreement_pct 80;
  if high : bool then Ok "🟢"
  else
    medium ← Builtins.ge_int agreement_pct 50;
    if medium : bool then Ok "🟡" else Ok "🔴".

Definition get_agreement_badge (agreement : value) : string :=
  if truthy agreement then "✅" else "❌".

Definition get_status_badge (status : value) : string :=
  if eq_str status "production" then "🟦"
  else if eq_str status "shadow_mode" then "🟨"
  else "⬜".

End Formatting.

(** ** [frontend/components/tables.py] *)

Module Tables.
Import Py.


End Tables.

(** ** [frontend/utils/api_client.py] *)

Module ApiClient.
Import Py.

Record request : Type := Request {
  method : string;
  req_url : string;
  params : list (string * value);
  timeout : Z
}.

(** What [requests.get] / [requests.post] can do: hand back a response, or
    raise (connection refused, timeout, malformed URL, ...). *)
Inductive outcome : Type :=
| Responds (r : response)
| Fails (e : exn).

(** The remote side, as seen by one call. *)
Definition network : Type := request -> outcome.

Definition send (net : network) (rq : request) : result response :=
  match net rq with
  | Responds r => Ok r
  | Fails e => Raise e
  end.

(** [response.raise_for_status()] of the [requests] library. *)
Definition raise_for_status (r : response) : result unit :=
  let code := status_code r in
  if (400 <=? code)%Z && (code <? 500)%Z then
    Raise (Exn HTTPError
             (Builtins.str_int code ++ " Client Error: " ++ reason r
              ++ " for url: " ++ url r) (Some r))
  else if (500 <=? code)%Z && (code <? 600)%Z then
    Raise (Exn HTTPError
             (Builtins.str_int code ++ " Server Error: " ++ reason r
              ++ " for url: " ++ url r) (Some r))
  else Ok tt.

(** [response.json()] *)
Definition response_json (r : response) : result value :=
  match json_body r with
  | Some v => Ok v
  | None => raise JSONDecodeError "Expecting value: line 1 column 1 (char 0)"
  end.

(** [e.response.status_code] *)
Definition response_status (e : exn) : result Z :=
  match exn_response e with
  | Some r => Ok (status_code r)
  | None => raise AttributeError "'NoneType' object has no attribute 'status_code'"
  end.

(** The three steps every call of the client starts with, named here so
    that they can be reasoned about once. *)
Definition exchange (net : network) (rq : request) : result value :=
  response ← send net rq;
  _ ← raise_for_status response;
  response_json response.

Record InferenceAPIClient : Type := Client {
  base_url : string;
  api_base : string
}.

(** [InferenceAPIClient.__init__] *)
Definition init (base : string) : InferenceAPIClient :=
  let b := Builtins.rstrip "/"%char base in
  Client b (b ++ "/api/v1").

Definition health_check (net : network) (self : InferenceAPIClient) : result value :=
  try_except
    (response ← send net (Request "GET" (api_base self ++ "/health") [] 5);
     _ ← raise_for_status response;
     response_json response)
    [(Exception, fun e =>
        Ok (VDict [("status", VStr "error"); ("error", VStr (exn_str e))]))].

(** Returns what was printed together with the result. *)
Definition get_recent_submissions_from_knoxxi
    (net : network) (self : InferenceAPIClient) (limit : value)
  : list string * result value :=
  let body :=
    response ← send net (Request "GET" (api_base self ++ "/submissions/recent")
                           [("limit", limit)] 10);
    _ ← raise_for_status response;
    data ← response_json response;
    submissions ← get data "submissions" (VList []);
    Ok submissions in
  match body with
  | Ok submissions => ([], Ok submissions)
  | Raise e =>
      if isinstance e Exception
      then (["Error fetching recent submissions: " ++ exn_str e], Ok (VList []))
      else ([], Raise e)
  end.

Definition run_inference (net : network) (self : InferenceAPIClient)
    (submission_id : string) : result value :=
  try_except
    (response ← send net (Request "POST"
                            (api_base self ++ "/inference/" ++ submission_id) [] 60);
     _ ← raise_for_status response;
     response_json response)
    [(HTTPError, fun e =>
        code ← response_status e;
        if (code =? 404)%Z
        then raise ValueError ("Submission " ++ submission_id ++ " not found")
        else Raise e);
     (Exception, fun e => raise Exception ("Inference failed: " ++ exn_str e))].


Definition get_submission_detail (net : network) (self : InferenceAPIClient)
    (submission_id : string) : result value :=
  try_except
    (response ← send net (Request "GET"
                            (api_base self ++ "/tracking/submissions/" ++ submission_id)
                            [] 10);
     _ ← raise_for_status response;
     response_json response)
    [(HTTPError, fun e =>
        code ← response_status e;
        if (code =? 404)%Z
        then raise ValueError
               ("Submission " ++ submission_id ++ " not found in tracking database")
        else Raise e);
     (Exception, fun e =>
        raise Exception ("Failed to fetch submission details: " ++ exn_str e))].

End ApiClient.

(** ** [app.py]: the legacy single page application *)

Module App.
Import Py Table.

(** One iteration of the loop of [prepare_results_dataframe].  The dict
    literal evaluates its entries in the order written, so the first
    missing key decides which exception is raised. *)
Definition prepare_row (param : value) : result row :=
  status ← getitem param "status";
  if eq_str status "error" then
    name ← getitem param "name";
    error ← get param "error" (VStr "Unknown error");
    Ok [("Parameter", name);
        ("Status", VStr "Error");
        ("Model Type", VStr "-");
        ("Prediction", VStr "-");
        ("Probability", VStr "-");
        ("Confidence", VStr "-");
        ("Ground Truth", VStr "-");
        ("GT Binary", VStr "-");
        ("Agreement", VStr "🔴");
        ("Error", error)]
  else
    agreement ← getitem param "agreement";
    let agreement_icon :=
      if is_True agreement then "✅"
      else if is_False agreement then "❌"
      else "⚠️" in
    name ← getitem param "name";
    model_status ← get param "model_status" (VStr "unknown");
    model_type ← getitem param "model_type";
    model_type_upper ← Builtins.call_upper model_type;
    prediction ← getitem param "prediction";
    probability ← getitem param "probability";
    probability_text ← Builtins.format_spec_f 3 probability;
    confidence ← getitem param "confidence";
    ground_truth_raw ← getitem param "ground_truth_raw";
    ground_truth_binary ← getitem param "ground_truth_binary";
    Ok [("Parameter", name);
        ("Status", model_status);
        ("Model Type", model_type_upper);
        ("Prediction", prediction);
        ("Probability", VStr probability_text);
        ("Confidence", confidence);
        ("Ground Truth", py_or ground_truth_raw (VStr "N/A"));
        ("GT Binary", py_or ground_truth_binary (VStr "N/A"));
        ("Agreement", VStr agreement_icon);
        ("Error", VStr "-")].

Definition prepare_results_dataframe (results : value) : result dataframe :=
  parameters ← getitem results "parameters";
  params ← iterate parameters;
  for_each prepare_row params.


End App.

(** ** Python objects in a shared store

    Lists and dicts are objects that several names may refer to and that
    [append] and item assignment change in place.  To speak about what a
    function does to its arguments, the functions that shape rows are
    embedded a second time over an explicit store of objects. *)

Module Heap.
Import Py.

Abbreviation loc := positive.

(** A value as a Python name holds it: an immutable scalar, or a reference
    to a list or dict object. *)
Inductive hval : Type :=
| HNone
| HBool (b : bool)
| HInt (z : Z)
| HFloat (f : spec_float)
| HStr (s : string)
| HRef (l : loc).

Inductive obj : Type :=
| OList (items : list hval)
| ODict (entries : list (string * hval)).

Abbreviation heap := (gmap loc obj).

(** How a run ends: with a value, with an exception, or with the model
    unable to go on (a reference to no object, or a loop that outlives its
    fuel; neither happens in Python). *)
Inductive outcome (A : Type) : Type :=
| Done (a : A)
| Raised (e : exn)
| Stuck.
Arguments Done {A} a.
Arguments Raised {A} e.
Arguments Stuck {A}.

(** A computation reads and changes the store. *)
Definition M (A : Type) : Type := heap -> outcome A * heap.

#[export] Instance M_ret : MRet M := fun A a h => (Done a, h).
#[export] Instance M_bind : MBind M :=
  fun A B k m h =>
    match m h with
    | (Done a, h') => k a h'
    | (Raised e, h') => (Raised e, h')
    | (Stuck, h') => (Stuck, h')
    end.

(** Run a computation that needs no store. *)
Definition lift {A} (r : result A) : M A :=
  fun h => (match r with Ok a => Done a | Raise e => Raised e end, h).

Definition stuck {A} : M A := fun h => (Stuck, h).

Definition deref (l : loc) : M obj :=
  fun h => match h !! l with
           | Some o => (Done o, h)
           | None => (Stuck, h)
           end.

(** A new object, at an address no object has. *)
Definition alloc (o : obj) : M hval :=
  fun h => let l := fresh (dom h) in (Done (HRef l), <[l := o]> h).

(** The scalar a name holds (not meant for references). *)
Definition scalar (v : hval) : value :=
  match v with
  | HNone => VNone
  | HBool b => VBool b
  | HInt z => VInt z
  | HFloat f => VFloat f
  | HStr s => VStr s
  | HRef _ => VNone
  end.

(** A value of the same type and truth value as the object. *)
Definition shell (o : obj) : value :=
  match o with
  | OList [] => VList []
  | OList (_ :: _) => VList [VNone]
  | ODict [] => VDict []
  | ODict (_ :: _) => VDict [("", VNone)]
  end.

(** What type, truth value and scalar content a name shows: all that
    [bool(v)], [type(v)], [format(v, spec)] and [v.upper()] look at. *)
Definition view (v : hval) : M value :=
  match v with
  | HRef l => o ← deref l; mret (shell o)
  | _ => mret (scalar v)
  end.

Definition eq_str (v : hval) (s : string) : bool := Py.eq_str (scalar v) s.
Definition is_True (v : hval) : bool := Py.is_True (scalar v).
Definition is_False (v : hval) : bool := Py.is_False (scalar v).

Fixpoint lookup_key (k : string) (d : list (string * hval)) : option hval :=
  match d with
  | [] => None
  | (k', v) :: rest => if String.eqb k' k then Some v else lookup_key k rest
  end.

(** An operation on a value of a type that does not support it: the
    exception the operation raises for that type. *)
Definition refused (r : result value) : M hval := lift (_ ← r; Ok HNone).

(** [v[k]] *)
Definition getitem (v : hval) (k : string) : M hval :=
  match v with
  | HRef l =>
      o ← deref l;
      match o with
      | ODict d =>
          match lookup_key k d with
          | Some x => mret x
          | None => lift (raise KeyError ("'" ++ k ++ "'"))
          end
      | OList _ => refused (Py.getitem (VList []) k)
      end
  | _ => refused (Py.getitem (scalar v) k)
  end.

(** [v.get(k, default)] *)
Definition get (v : hval) (k : string) (dflt : hval) : M hval :=
  match v with
  | HRef l =>
      o ← deref l;
      match o with
      | ODict d => mret (default dflt (lookup_key k d))
      | OList _ => refused (Py.get (VList []) k VNone)
      end
  | _ => refused (Py.get (scalar v) k VNone)
  end.

(** [a or b] *)
Definition py_or (a b : hval) : M hval :=
  x ← view a; mret (if truthy x then a else b).

(** [bool(v)], the test of [if v:] *)
Definition truth (v : hval) : M bool :=
  x ← view v; mret (truthy x).

(** [k in v] for a string [k] *)
Definition contains (k : string) (v : hval) : M bool :=
  match v with
  | HRef l =>
      o ← deref l;
      match o with
      | ODict d => mret (bool_decide (is_Some (lookup_key k d)))
      | OList items => mret (existsb (fun x => eq_str x k) items)
      end
  | _ => lift (Builtins.contains k (scalar v))
  end.

(** [format(v, '.nf')] *)
Definition format_spec_f (n : nat) (v : hval) : M string :=
  x ← view v; lift (Builtins.format_spec_f n x).

(** [v.upper()] *)
Definition call_upper (v : hval) : M hval :=
  x ← view v;
  lift (u ← Builtins.call_upper x;
        match u with VStr s => Ok (HStr s) | _ => Ok HNone end).

(** [lst.append(x)]: the list object changes in place. *)
Definition append (lst x : hval) : M unit :=
  match lst with
  | HRef l =>
      fun h => match h !! l with
               | Some (OList items) => (Done tt, <[l := OList (items ++ [x])]> h)
               | Some (ODict _) =>
                   (Raised (mk_exn AttributeError
                              "'dict' object has no attribute 'append'"), h)
               | None => (Stuck, h)
               end
  | _ => lift (raise AttributeError
                 ("'" ++ type_name (scalar lst) ++ "' object has no attribute 'append'"))
  end.

(** Run [body] on the elements of a fixed sequence. *)
Fixpoint each (body : hval -> M unit) (xs : list hval) : M unit :=
  match xs with
  | [] => mret tt
  | x :: rest => _ ← body x; each body rest
  end.

(** The list iterator: at every step it looks at the list object as it is
    then, so elements appended during the loop are visited too. *)
Fixpoint walk (fuel : nat) (body : hval -> M unit) (l : loc) (i : nat) : M unit :=
  match fuel with
  | O => stuck
  | S fuel' =>
      o ← deref l;
      match o with
      | OList items =>
          match items !! i with
          | Some x => _ ← body x; walk fuel' body l (S i)
          | None => mret tt
          end
      | ODict _ => stuck
      end
  end.

Fixpoint chars_of (s : string) : list hval :=
  match s with
  | EmptyString => []
  | String c rest => HStr (String c EmptyString) :: chars_of rest
  end.

(** [for x in v: body].  A list is walked through its iterator; the keys
    of a dict and the characters of a string are taken as they are when the
    loop starts. *)
Definition for_in (v : hval) (body : hval -> M unit) : M unit :=
  match v with
  | HRef l =>
      o ← deref l;
      match o with
      | OList items => walk (S (length items)) body l 0
      | ODict d => each body (map (fun kv => HStr (fst kv)) d)
      end
  | HStr s => each body (chars_of s)
  | _ => lift (_ ← Py.iterate (scalar v); Ok tt)
  end.

(** [pandas.DataFrame(rows)]: the frame copies the cells out of the list
    of dicts it is given. *)
Fixpoint read_rows (refs : list hval) : M (list (list (string * hval))) :=
  match refs with
  | [] => mret []
  | HRef l :: rest =>
      o ← deref l;
      match o with
      | ODict cells => rows ← read_rows rest; mret (cells :: rows)
      | OList _ => stuck
      end
  | _ :: _ => stuck
  end.

Definition DataFrame (rows : hval) : M (list (list (string * hval))) :=
  match rows with
  | HRef l =>
      o ← deref l;
      match o with
      | OList refs => read_rows refs
      | ODict _ => stuck
      end
  | _ => stuck
  end.

(** *** The document an object graph holds *)

(** Two lists related element by element. *)
Definition all2 {A B} (R : A -> B -> Prop) : list A -> list B -> Prop :=
  fix all (xs : list A) (ys : list B) {struct xs} : Prop :=
    match xs, ys with
    | [], [] => True
    | x :: xs', y :: ys' => R x y /\ all xs' ys'
    | _, _ => False
    end.

(** [represents h J v]: in the store [h] the name [v] holds the JSON
    document [J]. *)
Fixpoint represents (h : heap) (J : value) (v : hval) {struct J} : Prop :=
  match J with
  | VNone => v = HNone
  | VBool b => v = HBool b
  | VInt z => v = HInt z
  | VFloat f => v = HFloat f
  | VStr s => v = HStr s
  | VList Js =>
      exists l vs,
        v = HRef l /\ h !! l = Some (OList vs) /\ all2 (represents h) Js vs
  | VDict d =>
      exists l hd,
        v = HRef l /\ h !! l = Some (ODict hd) /\
        all2 (fun (e : string * value) (c : string * hval) =>
                fst e = fst c /\ represents h (snd e) (snd c)) d hd
  end.

(** A row of cells in the store holds a row of the table. *)
Definition cells_represent (h : heap) (cells : list (string * hval))
    (r : list (string * value)) : Prop :=
  all2 (fun (e : string * value) (c : string * hval) =>
          fst e = fst c /\ represents h (snd e) (snd c)) r cells.

(** *** Reading, appending, looping: what a computation does to the store

    The store [h0] holds the input; a computation runs in any store [h]
    that extends it. *)

(** [x] has the type, truth value and scalar content of the document
    [J]. *)
Definition alike (x J : value) : Prop :=
  match J with
  | VList [] => x = VList []
  | VList (_ :: _) => x = VList [VNone]
  | VDict [] => x = VDict []
  | VDict (_ :: _) => x = VDict [("", VNone)]
  | _ => x = J
  end.

(** [m] only reads: it leaves every store as it is, and its outcome is
    the one of the store-free computation [r], up to [R]. *)
Definition reads {A B} (h0 : heap) (R : A -> B -> Prop) (m : M A) (r : result B)
  : Prop :=
  match r with
  | Ok b => exists a, R a b /\ forall h, h0 ⊆ h -> m h = (Done a, h)
  | Raise e => forall h, h0 ⊆ h -> m h = (Raised e, h)
  end.

(** The store after a new dict of [cells] was appended to the list at
    [rl]. *)
Definition appended (rl : loc) (cells : list (string * hval)) (refs : list hval)
    (h : heap) : heap :=
  <[rl := OList (refs ++ [HRef (fresh (dom h))])]>
    (<[fresh (dom h) := ODict cells]> h).

(** [m rl] does what one iteration does, whatever list [rl] collects the
    rows: it appends one new dict, holding the row [r] computes, to the
    list at [rl], or raises what [r] raises and leaves the store as it
    is. *)
Definition appends (h0 : heap) (m : loc -> M unit)
    (r : result (list (string * value))) : Prop :=
  match r with
  | Ok row =>
      exists cells,
        cells_represent h0 cells row /\
        forall rl h refs, h0 ⊆ h -> h !! rl = Some (OList refs) ->
                          m rl h = (Done tt, appended rl cells refs h)
  | Raise e =>
      forall rl h refs, h0 ⊆ h -> h !! rl = Some (OList refs) ->
                        m rl h = (Raised e, h)
  end.

(** Every object but the one at [rl] is in [h'] what it was in [h]. *)
Definition kept (rl : loc) (h h' : heap) : Prop :=
  forall l o, l <> rl -> h !! l = Some o -> h' !! l = Some o.

(** The references [refs] point to dicts holding [cellss]. *)
Definition rows_hold (h : heap) (refs : list hval)
    (cellss : list (list (string * hval))) : Prop :=
  all2 (fun ref cells => exists l, ref = HRef l /\ h !! l = Some (ODict cells))
       refs cellss.

(** [m rl] does what the whole loop does, whatever list [rl], unknown to
    the input, collects the rows. *)
Definition loops (h0 : heap) (m : loc -> M unit)
    (r : result (list (list (string * value)))) : Prop :=
  match r with
  | Ok rs =>
      exists cellss,
        all2 (cells_represent h0) cellss rs /\
        forall rl h refs,
          h0 !! rl = None -> h0 ⊆ h -> h !! rl = Some (OList refs) ->
          exists h' newrefs,
            m rl h = (Done tt, h') /\ kept rl h h'
            /\ h' !! rl = Some (OList (refs ++ newrefs))
            /\ rows_hold h' newrefs cellss
  | Raise e =>
      forall rl h refs,
        h0 !! rl = None -> h0 ⊆ h -> h !! rl = Some (OList refs) ->
        exists h' refs',
          m rl h = (Raised e, h') /\ kept rl h h' /\ h' !! rl = Some (OList refs')
  end.

(** [m rl] fills the list at [rl], empty and unknown to the input, and
    reads the frame off it: the rows [r] computes, or the exception [r]
    raises; every other object is left as it was. *)
Definition gathers (h0 : heap) (m : loc -> M (list (list (string * hval))))
    (r : result (list (list (string * value)))) : Prop :=
  match r with
  | Ok df =>
      exists hdf,
        all2 (cells_represent h0) hdf df /\
        forall rl h,
          h0 !! rl = None -> h0 ⊆ h -> h !! rl = Some (OList []) ->
          exists h', m rl h = (Done hdf, h') /\ kept rl h h'
  | Raise e =>
      forall rl h,
        h0 !! rl = None -> h0 ⊆ h -> h !! rl = Some (OList []) ->
        exists h', m rl h = (Raised e, h') /\ kept rl h h'
  end.

(** [run] over the store does what the store-free [r] computes: in every
    store that extends [h0] it ends as [r] does (with the same result up
    to [R], or the same exception) and every object of the store is
    afterwards what it was. *)
Definition refines {A B} (h0 : heap) (R : A -> B -> Prop) (run : M A) (r : result B)
  : Prop :=
  match r with
  | Ok b =>
      exists a, R a b /\ forall h, h0 ⊆ h -> exists h', run h = (Done a, h') /\ h ⊆ h'
  | Raise e => forall h, h0 ⊆ h -> exists h', run h = (Raised e, h') /\ h ⊆ h'
  end.

(** The rows of a frame in the store hold the rows of a table. *)
Definition same_rows (h0 : heap) (hdf : list (list (string * hval)))
    (df : list (list (string * value))) : Prop :=
  all2 (cells_represent h0) hdf df.

(** The same, for a table that may not be drawn at all. *)
Definition same_table (h0 : heap) (hdf : option (list (list (string * hval))))
    (df : option (list (list (string * value)))) : Prop :=
  match hdf, df with
  | Some a, Some b => same_rows h0 a b
  | None, None => True
  | _, _ => False
  end.

(** The object graph the JSON reader builds for a document. *)
Fixpoint encode (J : value) : M hval :=
  match J with
  | VNone => mret HNone
  | VBool b => mret (HBool b)
  | VInt z => mret (HInt z)
  | VFloat f => mret (HFloat f)
  | VStr s => mret (HStr s)
  | VList Js =>
      vs ← (fix go (Js : list value) : M (list hval) :=
              match Js with
              | [] => mret []
              | J' :: Js' => v ← encode J'; vs ← go Js'; mret (v :: vs)
              end) Js;
      alloc (OList vs)
  | VDict d =>
      hd ← (fix go (d : list (string * value)) : M (list (string * hval)) :=
              match d with
              | [] => mret []
              | (k, J') :: d' => v ← encode J'; hd ← go d'; mret ((k, v) :: hd)
              end) d;
      alloc (ODict hd)
  end.

End Heap.

(** ** [app.py] over the shared store *)

Module HeapApp.
Import Py Heap.

(** The body of the loop of [prepare_results_dataframe]: it reads [param],
    builds the dict [row] and appends it to the list [rows]. *)
Definition loop_body (rows param : hval) : M unit :=
  status ← getitem param "status";
  if eq_str status "error" then
    name ← getitem param "name";
    error ← get param "error" (HStr "Unknown error");
    row ← alloc (ODict
      [("Parameter", name);
       ("Status", HStr "Error");
       ("Model Type", HStr "-");
       ("Prediction", HStr "-");
       ("Probability", HStr "-");
       ("Confidence", HStr "-");
       ("Ground Truth", HStr "-");
       ("GT Binary", HStr "-");
       ("Agreement", HStr "🔴");
       ("Error", error)]);
    append rows row
  else
    agreement ← getitem param "agreement";
    let agreement_icon :=
      if is_True agreement then "✅"
      else if is_False agreement then "❌"
      else "⚠️" in
    name ← getitem param "name";
    model_status ← get param "model_status" (HStr "unknown");
    model_type ← getitem param "model_type";
    model_type_upper ← call_upper model_type;
    prediction ← getitem param "prediction";
    probability ← getitem param "probability";
    probability_text ← format_spec_f 3 probability;
    confidence ← getitem param "confidence";
    ground_truth_raw ← getitem param "ground_truth_raw";
    ground_truth ← py_or ground_truth_raw (HStr "N/A");
    ground_truth_binary ← getitem param "ground_truth_binary";
    gt_binary ← py_or ground_truth_binary (HStr "N/A");
    row ← alloc (ODict
      [("Parameter", name);
       ("Status", model_status);
       ("Model Type", model_type_upper);
       ("Prediction", prediction);
       ("Probability", HStr probability_text);
       ("Confidence", confidence);
       ("Ground Truth", ground_truth);
       ("GT Binary", gt_binary);
       ("Agreement", HStr agreement_icon);
       ("Error", HStr "-")]);
    append rows row.

Definition prepare_results_dataframe (results : hval)
  : M (list (list (string * hval))) :=
  rows ← alloc (OList []);
  parameters ← getitem results "parameters";
  _ ← for_in parameters (loop_body rows);
  DataFrame rows.

End HeapApp.

(** ** Streamlit session state and notices *)

Module Streamlit.
Import Py.

(** [st.session_state]: named slots holding Python values. *)
Abbreviation session := (gmap string value).

(** The message widgets a page emits. *)
Inductive notice : Type :=
| success (text : string)
| error (text : string)
| info (text : string)
| warning (text : string).

Definition whitespace (c : ascii) : bool :=
  let n := nat_of_ascii c in
  (n =? 32)%nat || ((9 <=? n)%nat && (n <=? 13)%nat).

Fixpoint lstrip_ws (l : list ascii) : list ascii :=
  match l with
  | x :: rest => if whitespace x then lstrip_ws rest else l
  | [] => []
  end.

(** [s.strip()] on ASCII white space *)
Definition strip (s : string) : string :=
  string_of_list_ascii
    (rev (lstrip_ws (rev (lstrip_ws (list_ascii_of_string s))))).

End Streamlit.

(** ** [frontend/pages/inference.py] *)

Module InferencePage.
Import Py Table Streamlit.


(** One iteration of the loop that fills [params_data]. *)
Definition params_row (param : value) : result row :=
  status ← get param "status" VNone;
  if eq_str status "success" then
    name ← get param "name" (VStr "N/A");
    model_type ← get param "model_type" (VStr "N/A");
    model ← Builtins.call_upper model_type;
    prediction ← get param "prediction" (VStr "N/A");
    ground_truth ← get param "ground_truth_raw" (VStr "N/A");
    agreement ← get param "agreement" (VBool false);
    probability ← get param "probability" (VInt 0);
    probability_text ← Builtins.format_spec_f 3 probability;
    Ok [("Parameter", name);
        ("Model", model);
        ("Prediction", prediction);
        ("Ground Truth", ground_truth);
        ("Agreement", VStr (Formatting.get_agreement_badge agreement));
        ("Probability", VStr probability_text)]
  else
    name ← get param "name" (VStr "N/A");
    Ok [("Parameter", name);
        ("Model", VStr "-");
        ("Prediction", VStr "-");
        ("Ground Truth", VStr "-");
        ("Agreement", VStr "-");
        ("Probability", VStr "-")].

(** The parameters table of [show_inference_page]: [None] when the guard
    ['parameters' in result and result['parameters']] is false and no
    table is drawn. *)
Definition params_data (result : value) : Py.result (option dataframe) :=
  present ← Builtins.contains "parameters" result;
  if present : bool then
    parameters ← getitem result "parameters";
    if truthy parameters then
      params ← iterate parameters;
      rows ← for_each params_row params;
      Ok (Some rows)
    else Ok None
  else Ok None.

End InferencePage.

(** ** [frontend/components/detail_view.py] *)

Module DetailView.
Import Py Table.

(** One iteration of the loop that fills [table_data] in
    [render_parameter_breakdown]. *)
Definition table_row (param : value) : result row :=
  agreement ← get param "agreement" VNone;
  agreement_pct ← get param "agreement_pct" (VInt 0);
  parameter_name ← get param "parameter_name" (VStr "N/A");
  model_type ← get param "model_type" (VStr "N/A");
  prediction ← get param "prediction" (VStr "N/A");
  ground_truth_raw ← get param "ground_truth_raw" (VStr "N/A");
  ground_truth_binary ← get param "ground_truth_binary" (VStr "N/A");
  probability ← get param "probability" (VInt 0);
  threshold ← get param "threshold" (VInt 0);
  Ok [("Agreement", VStr (Formatting.get_agreement_badge agreement));
      ("Parameter", parameter_name);
      ("Model Type", model_type);
      ("Prediction", prediction);
      ("Ground Truth", ground_truth_raw);
      ("GT Binary", ground_truth_binary);
      ("Agreement %", agreement_pct);
      ("Probability", probability);
      ("Threshold", threshold)].

(** [highlight_disagreement]: the background colour of a whole row. *)
Definition highlight_disagreement (r : row) : string :=
  match cell r "Agreement" with
  | Some v =>
      if eq_str v "❌" then "background-color: #f8d7da"
      else "background-color: #d4edda"
  | None => "background-color: #d4edda"
  end.

(** The formatters attached to the styled table:
    [{'Agreement %': '{:.1f}%', 'Probability': '{:.4f}', 'Threshold': '{:.2f}'}]. *)
Definition formatters : list (string * (nat * string)) :=
  [("Agreement %", (1%nat, "%")); ("Probability", (4%nat, "")); ("Threshold", (2%nat, ""))].

(** The text shown in column [column] of a row of the frame: the cell the
    row holds goes through the column's formatter when it has one, else
    the text cell itself. *)
Definition shown (r : row) (column : string) : result (option string) :=
  match cell r column with
  | None => Ok None
  | Some v =>
      match List.find (fun f => String.eqb (fst f) column) formatters with
      | Some (_, (n, suffix)) => s ← styled_text n suffix v; Ok (Some s)
      | None => Ok (shown_text v)
      end
  end.

(** [p.get('agreement') is True] *)
Definition agrees (p : value) : result bool :=
  a ← get p "agreement" VNone; Ok (is_True a).

(** [sum(1 for p in parameters if p.get('agreement') is True)] *)
Fixpoint count_agreed (params : list value) : result Z :=
  match params with
  | [] => Ok 0%Z
  | p :: rest =>
      b ← agrees p;
      n ← count_agreed rest;
      Ok (if b : bool then 1 + n else n)%Z
  end.

(** [f"{agreed/total*100:.1f}%" if total > 0 else "0%"] *)
Definition agreement_rate (agreed total : Z) : string :=
  if (0 <? total)%Z then
    PyFloat.format_f 1
      (SFmul PyFloat.prec PyFloat.emax
         (SFdiv PyFloat.prec PyFloat.emax (PyFloat.of_Z agreed) (PyFloat.of_Z total))
         (PyFloat.of_Z 100)) ++ "%"
  else "0%".

(** The loop that fills [table_data]. *)
Definition table_data (parameters : value) : result (list row) :=
  params ← iterate parameters;
  for_each table_row params.

(** [st.dataframe(styled_df, ...)]: drawing the styled table prints every
    cell of the three formatted columns, row by row and, in a row, in the
    order of the columns; the first cell its formatter cannot print
    raises.  What the grid widget does with the other columns is outside
    the program. *)
Definition formatted_cells (df : dataframe) : result (list (list (option string))) :=
  for_each (fun r => for_each (fun f => shown r (fst f)) formatters) df.

(** What [render_parameter_breakdown] puts on the page: the table (the
    frame and the texts of its formatted columns) and the three summary
    metrics. *)
Record breakdown : Type := Breakdown {
  table : dataframe;
  formatted : list (list (option string));
  agreed_metric : Z;
  disagreed_metric : Z;
  rate_metric : string
}.

(** [None] stands for the early return with the warning
    "No parameter results available".  The counters come after the table:
    when drawing the table raises, none is shown. *)
Definition render_parameter_breakdown (parameters : value) : result (option breakdown) :=
  if negb (truthy parameters) then Ok None
  else
    rows ← table_data parameters;
    let df := DataFrame rows in
    texts ← formatted_cells df;
    params ← iterate parameters;
    let total := Z.of_nat (length params) in
    agreed ← count_agreed params;
    let disagreed := (total - agreed)%Z in
    Ok (Some (Breakdown df texts agreed disagreed (agreement_rate agreed total))).

(** [p.get('agreement') is False] *)
Definition disagrees (p : value) : result bool :=
  a ← get p "agreement" VNone; Ok (is_False a).

(** The list comprehension of [render_disagreements_only]. *)
Fixpoint disagreements (params : list value) : result (list value) :=
  match params with
  | [] => Ok []
  | p :: rest =>
      b ← disagrees p;
      ds ← disagreements rest;
      Ok (if b : bool then p :: ds else ds)
  end.


End DetailView.

(** ** [frontend/pages/detail.py] *)

Module DetailPage.
Import Py Table Streamlit.

(** The [try] block that loads a submission: the new session state and
    the notices shown. *)
Definition load_details (net : ApiClient.network) (api_client : ApiClient.InferenceAPIClient)
    (submission_id : string) (st : session) : result (session * list notice) :=
  try_except
    (details ← ApiClient.get_submission_detail net api_client (strip submission_id);
     Ok (<["current_detail" := details]> (delete "selected_submission_id" st),
         [success ("✅ Loaded details for " ++ submission_id)]))
    [(ValueError, fun e =>
        Ok (st, [error ("❌ " ++ exn_str e);
                 info "💡 This submission may not have been tracked yet. Try running inference on it first."]));
     (Exception, fun e => Ok (st, [error ("❌ Error: " ++ exn_str e)]))].

(** One iteration of the loop that fills [export_data]. *)
Definition export_row (details param : value) : result row :=
  submission_id ← get details "submission_id" VNone;
  parameter_name ← get param "parameter_name" VNone;
  model_status ← get param "model_status" VNone;
  model_type ← get param "model_type" VNone;
  prediction ← get param "prediction" VNone;
  ground_truth_raw ← get param "ground_truth_raw" VNone;
  ground_truth_binary ← get param "ground_truth_binary" VNone;
  agreement ← get param "agreement" VNone;
  probability ← get param "probability" VNone;
  threshold ← get param "threshold" VNone;
  Ok [("Submission ID", submission_id);
      ("Parameter", parameter_name);
      ("Model Status", model_status);
      ("Model Type", model_type);
      ("Prediction", prediction);
      ("Ground Truth Raw", ground_truth_raw);
      ("Ground Truth Binary", ground_truth_binary);
      ("Agreement", agreement);
      ("Probability", probability);
      ("Threshold", threshold)].

(** The rows behind "Export Details". *)
Definition export_data (details : value) : result dataframe :=
  parameters ← get details "parameters" (VList []);
  params ← iterate parameters;
  for_each (export_row details) params.

End DetailPage.

(** ** The row shaping of the pages over the shared store *)

Module HeapFormatting.
Import Py Heap.

Definition get_agreement_badge (agreement : hval) : M string :=
  t ← truth agreement;
  mret (if t : bool then "✅" else "❌").

End HeapFormatting.

Module HeapInferencePage.
Import Py Heap.

(** The body of the loop that fills [params_data]. *)
Definition params_body (params_data param : hval) : M unit :=
  status ← get param "status" HNone;
  if eq_str status "success" then
    name ← get param "name" (HStr "N/A");
    model_type ← get param "model_type" (HStr "N/A");
    model ← call_upper model_type;
    prediction ← get param "prediction" (HStr "N/A");
    ground_truth ← get param "ground_truth_raw" (HStr "N/A");
    agreement ← get param "agreement" (HBool false);
    badge ← HeapFormatting.get_agreement_badge agreement;
    probability ← get param "probability" (HInt 0);
    probability_text ← format_spec_f 3 probability;
    row ← alloc (ODict
      [("Parameter", name);
       ("Model", model);
       ("Prediction", prediction);
       ("Ground Truth", ground_truth);
       ("Agreement", HStr badge);
       ("Probability", HStr probability_text)]);
    append params_data row
  else
    name ← get param "name" (HStr "N/A");
    row ← alloc (ODict
      [("Parameter", name);
       ("Model", HStr "-");
       ("Prediction", HStr "-");
       ("Ground Truth", HStr "-");
       ("Agreement", HStr "-");
       ("Probability", HStr "-")]);
    append params_data row.

(** The parameters table of [show_inference_page]; [result['parameters']]
    is read for the guard and again for the loop. *)
Definition params_data (result : hval) : M (option (list (list (string * hval)))) :=
  present ← contains "parameters" result;
  if present : bool then
    guard ← getitem result "parameters";
    nonempty ← truth guard;
    if nonempty : bool then
      params_data ← alloc (OList []);
      parameters ← getitem result "parameters";
      _ ← for_in parameters (params_body params_data);
      df ← DataFrame params_data;
      mret (Some df)
    else mret None
  else mret None.

End HeapInferencePage.

Module HeapDetailView.
Import Py Heap.

(** The body of the loop that fills [table_data]. *)
Definition table_body (table_data param : hval) : M unit :=
  agreement ← get param "agreement" HNone;
  agreement_pct ← get param "agreement_pct" (HInt 0);
  badge ← HeapFormatting.get_agreement_badge agreement;
  parameter_name ← get param "parameter_name" (HStr "N/A");
  model_type ← get param "model_type" (HStr "N/A");
  prediction ← get param "prediction" (HStr "N/A");
  ground_truth_raw ← get param "ground_truth_raw" (HStr "N/A");
  ground_truth_binary ← get param "ground_truth_binary" (HStr "N/A");
  probability ← get param "probability" (HInt 0);
  threshold ← get param "threshold" (HInt 0);
  row ← alloc (ODict
    [("Agreement", HStr badge);
     ("Parameter", parameter_name);
     ("Model Type", model_type);
     ("Prediction", prediction);
     ("Ground Truth", ground_truth_raw);
     ("GT Binary", ground_truth_binary);
     ("Agreement %", agreement_pct);
     ("Probability", probability);
     ("Threshold", threshold)]);
  append table_data row.

(** The rows [render_parameter_breakdown] hands to [pandas.DataFrame]. *)
Definition table_data (parameters : hval) : M (list (list (string * hval))) :=
  table_data ← alloc (OList []);
  _ ← for_in parameters (table_body table_data);
  DataFrame table_data.

End HeapDetailView.

Module HeapDetailPage.
Import Py Heap.

(** The body of the loop that fills [export_data]. *)
Definition export_body (details export_data param : hval) : M unit :=
  submission_id ← get details "submission_id" HNone;
  parameter_name ← get param "parameter_name" HNone;
  model_status ← get param "model_status" HNone;
  model_type ← get param "model_type" HNone;
  prediction ← get param "prediction" HNone;
  ground_truth_raw ← get param "ground_truth_raw" HNone;
  ground_truth_binary ← get param "ground_truth_binary" HNone;
  agreement ← get param "agreement" HNone;
  probability ← get param "probability" HNone;
  threshold ← get param "threshold" HNone;
  row ← alloc (ODict
    [("Submission ID", submission_id);
     ("Parameter", parameter_name);
     ("Model Status", model_status);
     ("Model Type", model_type);
     ("Prediction", prediction);
     ("Ground Truth Raw", ground_truth_raw);
     ("Ground Truth Binary", ground_truth_binary);
     ("Agreement", agreement);
     ("Probability", probability);
     ("Threshold", threshold)]);
  append export_data row.

(** The rows behind "Export Details".  The default [[]] of
    [details.get('parameters', [])] is a new list object, made before the
    call. *)
Definition export_data (details : hval) : M (list (list (string * hval))) :=
  export_data ← alloc (OList []);
  no_parameters ← alloc (OList []);
  parameters ← get details "parameters" no_parameters;
  _ ← for_in parameters (export_body details export_data);
  DataFrame export_data.

End HeapDetailPage.

(** ** The legacy page [app.py]: selector and run button *)

Module LegacyPage.
Import Py Streamlit.

(** [run_inference]: the failure is shown and [None] returned.
    [submission_id] is the selected id as the f-string of the URL prints
    it; the request headers are the same for every call and left out. *)
Definition run_inference (net : ApiClient.network) (backend submission_id : string)
  : value * list notice :=
  match ApiClient.exchange net
          (ApiClient.Request "POST" (backend ++ "/api/v1/inference/" ++ submission_id)
             [] 60) with
  | Ok body => (body, [])
  | Raise e => (VNone, [error ("Inference failed: " ++ exn_str e)])
  end.


(** A byte that continues a character of a UTF-8 text. *)
Definition continuation (c : ascii) : bool :=
  let n := nat_of_ascii c in (128 <=? n)%nat && (n <? 192)%nat.


(** [s[:n]]: the first [n] characters. *)
Fixpoint prefix (n : nat) (s : string) : string :=
  match s with
  | EmptyString => EmptyString
  | String c rest =>
      if continuation c then String c (prefix n rest)
      else match n with
           | O => EmptyString
           | S n' => String c (prefix n' rest)
           end
  end.



Section Selector.

(** The text Python prints for a list or a dict, kept abstract. *)
Variable repr_of : value -> string.






End Selector.

End LegacyPage.

(** ** The mathematical value of a number *)

Module Exact.
Import Py.

(** The rationals with the two infinities: where [int] and [float] values
    other than NaN live. *)
Inductive xnum : Type :=
| NegInf
| Fin (q : Q)
| PosInf.

Definition xle (a b : xnum) : Prop :=
  match a, b with
  | NegInf, _ => True
  | _, PosInf => True
  | Fin p, Fin q => (p <= q)%Q
  | _, _ => False
  end.

Definition xlt (a b : xnum) : Prop :=
  match a, b with
  | PosInf, _ => False
  | _, NegInf => False
  | Fin p, Fin q => (p < q)%Q
  | _, _ => True
  end.

(** The three-way comparison behind [xle] and [xlt]. *)
Definition xcompare (a b : xnum) : comparison :=
  match a, b with
  | NegInf, NegInf => Eq
  | NegInf, _ => Lt
  | _, NegInf => Gt
  | PosInf, PosInf => Eq
  | PosInf, _ => Gt
  | _, PosInf => Lt
  | Fin p, Fin q => (p ?= q)%Q
  end.

(** [m * 2^e] as a rational. *)
Definition mag (m : positive) (e : Z) : Q := (inject_Z (Zpos m) * 2 ^ e)%Q.

Definition float_value (x : spec_float) : option xnum :=
  match x with
  | S754_nan => None
  | S754_infinity s => Some (if s then NegInf else PosInf)
  | S754_zero _ => Some (Fin 0%Q)
  | S754_finite s m e => Some (Fin (if s then - mag m e else mag m e)%Q)
  end.

(** The value of a Python number; a [bool] is the integer 0 or 1. *)
Definition number (v : value) : option xnum :=
  match v with
  | VInt z => Some (Fin (inject_Z z))
  | VBool b => Some (Fin (inject_Z (Z.b2z b)))
  | VFloat f => float_value f
  | _ => None
  end.

(** Floats held by Python are canonical binary64 numbers. *)
Definition wellformed (v : value) : bool :=
  match v with
  | VFloat f => valid_binary PyFloat.prec PyFloat.emax f
  | _ => true
  end.

End Exact.

(** ** Vocabulary of the specification

    The definitions below follow the words of the specification, not the
    code: they name the situations its sentences talk about, so that the
    theorems of Part II can compare the code with them. *)

Module Spec.
Import Py ApiClient.

(** *** Transport outcomes *)

(** What one HTTP exchange amounts to: a JSON body was delivered, or the
    exchange failed (the connection, an error status, or a body that is
    not JSON). *)
Inductive verdict : Type :=
| Delivered (body : value)
| Failed (e : exn).

Definition error_status (code : Z) : bool := (400 <=? code)%Z && (code <? 600)%Z.

Definition status_error (r : response) : exn :=
  Exn HTTPError
    (Builtins.str_int (status_code r)
     ++ (if (status_code r <? 500)%Z then " Client Error: " else " Server Error: ")
     ++ reason r ++ " for url: " ++ url r)
    (Some r).

Definition verdict_of (o : outcome) : verdict :=
  match o with
  | Fails e => Failed e
  | Responds r =>
      if error_status (status_code r) then Failed (status_error r)
      else match json_body r with
           | Some body => Delivered body
           | None => Failed (mk_exn JSONDecodeError "Expecting value: line 1 column 1 (char 0)")
           end
  end.

(** The HTTP status the server answered with, when it answered: the status
    of the response, or of the response attached to a raised
    [HTTPError]. *)
Definition http_status (o : outcome) : option Z :=
  match o with
  | Responds r => Some (status_code r)
  | Fails e =>
      if exn_class_eqb (exn_cls e) HTTPError
      then status_code <$> exn_response e
      else None
  end.

Definition answered_404 (o : outcome) : bool :=
  match http_status o with
  | Some code => (code =? 404)%Z
  | None => false
  end.

(** *** Signals seen by the caller

    The pages call the client inside
    [try: ... except ValueError as e: ... except Exception as e: ...]:
    a [ValueError] is the "not found" signal, every other exception the
    "transient failure" signal. *)
Inductive signal : Type :=
| Returned (v : value)
| NotFound (message : string)
| TransientFailure (e : exn).

Definition signal_of (r : result value) : signal :=
  match r with
  | Ok v => Returned v
  | Raise e =>
      if isinstance e ValueError then NotFound (exn_str e)
      else TransientFailure e
  end.

Definition is_not_found (s : signal) : bool :=
  match s with NotFound _ => true | _ => false end.
Definition is_transient (s : signal) : bool :=
  match s with TransientFailure _ => true | _ => false end.
Definition is_returned (s : signal) : bool :=
  match s with Returned _ => true | _ => false end.

(** The three outcomes the specification allows a guarded call:
    [Ok(value)], [NotFound], [TransientFailure]. *)
Inductive kind : Type := KReturned | KNotFound | KTransient.

Definition kind_of (s : signal) : kind :=
  match s with
  | Returned _ => KReturned
  | NotFound _ => KNotFound
  | TransientFailure _ => KTransient
  end.

(** "NotFound when the server returns HTTP 404; TransientFailure for any
    other transport or server error". *)
Definition expected_kind (o : outcome) : kind :=
  if answered_404 o then KNotFound
  else match verdict_of o with
       | Delivered _ => KReturned
       | Failed _ => KTransient
       end.

(** The exception a guarded call raises for a failure [e] of the
    exchange: the "not found" [ValueError] for a 404, the [HTTPError]
    itself for another status, and a plain [Exception] carrying the
    message of anything else. *)
Definition reraised (not_found prefix : string) (e : exn) : exn :=
  if exn_class_eqb (exn_cls e) HTTPError then
    match exn_response e with
    | Some r => if (status_code r =? 404)%Z then mk_exn ValueError not_found else e
    | None => mk_exn AttributeError "'NoneType' object has no attribute 'status_code'"
    end
  else mk_exn Exception (prefix ++ exn_str e).

Definition is_dict (v : value) : bool :=
  match v with VDict _ => true | _ => false end.

(** *** Badges *)

Definition AGREE : string := "✅".
Definition DISAGREE : string := "❌".
Definition NO_GROUND_TRUTH : string := "⚠️".
Definition ERROR : string := "🔴".
Definition PLACEHOLDER : string := "-".

Definition HIGH : string := "🟢".
Definition MEDIUM : string := "🟡".
Definition LOW : string := "🔴".

(** *** Fields of a parameter result *)

Definition field (name : string) (p : value) : value :=
  match p with
  | VDict d => default VNone (lookup_key name d)
  | _ => VNone
  end.

(** [agreement] is exactly [true]. *)
Definition exactly_true (p : value) : bool := is_True (field "agreement" p).

(** "agreement == null or status == error" *)
Definition unlabelled_or_failed (p : value) : bool :=
  is_None (field "agreement" p) || eq_str (field "status" p) "error".

(** *** Row shaping without side effects *)

(** [run], a row shaping over the shared store, is deterministic,
    repeatable and free of side effects: one outcome [out], fixed by the
    store-free result [r] (its rows up to [R], or its exception), is what
    [run] produces in every store [h] that extends the input store [h0],
    whatever else [h] holds; every object of [h] is afterwards what it
    was; and a second run in the resulting store produces [out] again. *)
Definition unaffected {A B} (h0 : Heap.heap) (R : A -> B -> Prop)
    (run : Heap.M A) (r : result B) : Prop :=
  exists out : Heap.outcome A,
    match r with
    | Ok b => exists a, out = Heap.Done a /\ R a b
    | Raise e => out = Heap.Raised e
    end
    /\ forall h, h0 ⊆ h ->
         exists h' h'',
           run h = (out, h') /\ h ⊆ h'
           /\ run h' = (out, h'') /\ h' ⊆ h''.

(** A cell the formatters of the detail table can print: a [float], or
    an [int] (a [bool] is one) that converts to [float]. *)
Definition formattable (v : value) : bool :=
  match v with
  | VFloat _ | VBool _ => true
  | VInt z =>
      match PyFloat.of_Z z with
      | S754_infinity _ => false
      | _ => true
      end
  | _ => false
  end.

(** A parameter result whose three formatted fields can be printed; a
    field that is absent counts as 0, as the table has it. *)
Definition printable (p : value) : bool :=
  match p with
  | VDict d =>
      forallb (fun k => formattable (default (VInt 0) (lookup_key k d)))
        ["agreement_pct"; "probability"; "threshold"]
  | _ => false
  end.






(** The rows the end-to-end example of the specification announces. *)
Definition rows_of_the_example (rows : list (list (string * value))) : Prop :=
  exists r1 r2,
    rows = [r1; r2]
    /\ lookup_key "Agreement" r1 = Some (VStr "✅")
    /\ lookup_key "Probability" r1 = Some (VStr "0.812")
    /\ lookup_key "Agreement" r2 = Some (VStr "🔴")
    /\ lookup_key "Probability" r2 = Some (VStr "-").

(** The rank of the tier chosen from the outcome of the two tests
    [pct >= 80] and [pct >= 50]. *)
Definition tier (high medium : bool) : nat :=
  if high then 2%nat else if medium then 1%nat else 0%nat.

(** [pct < k] as Python evaluates it: the test the specification states
    the low tier with. *)
Definition lt_int (pct : value) (k : Z) : result bool :=
  match pct with
  | VInt z => Ok (z <? k)%Z
  | VBool b => Ok (Z.b2z b <? k)%Z
  | VFloat f => Ok (PyFloat.lt f (PyFloat.of_Z k))
  | _ => raise TypeError
           ("'<' not supported between instances of '" ++ type_name pct ++ "' and 'int'")
  end.

(** The rank of an agreement-rate indicator: low, medium, high. *)
Definition rank (indicator : result string) : option nat :=
  match indicator with
  | Ok s =>
      if String.eqb s LOW then Some 0%nat
      else if String.eqb s MEDIUM then Some 1%nat
      else if String.eqb s HIGH then Some 2%nat
      else None
  | Raise _ => None
  end.

(** The badge the specification asks for, from the two fields of a
    parameter result. *)
Definition expected_badge (status agreement : value) : string :=
  if eq_str status "error" then ERROR
  else if is_True agreement then AGREE
  else if is_False agreement then DISAGREE
  else NO_GROUND_TRUTH.

End Spec.

(** ** Sample documents *)

Module Samples.
Import Py ApiClient.

(** The float the JSON reader makes of the literal [0.812]. *)
Definition p0812 : spec_float := PyFloat.of_decimal 812 3.

Definition P1 : value :=
  VDict [("parameter_name", VStr "P1"); ("status", VStr "success");
         ("agreement", VBool true); ("probability", VFloat p0812)].

Definition P2 : value :=
  VDict [("parameter_name", VStr "P2"); ("status", VStr "error");
         ("error", VStr "model load failed")].

(** The SubmissionDetail of the end-to-end example of the
    specification. *)
Definition abc123 : value :=
  VDict [("submission_id", VStr "abc123"); ("parameters", VList [P1; P2])].

(** A parameter result of the inference API for which no ground truth
    exists: [agreement] is [null]. *)
Definition unlabelled (agreement : value) : value :=
  VDict [("name", VStr "pH"); ("status", VStr "success");
         ("model_status", VStr "production"); ("model_type", VStr "cnn");
         ("prediction", VStr "positive"); ("probability", VFloat p0812);
         ("confidence", VStr "high"); ("ground_truth_raw", VNone);
         ("ground_truth_binary", VNone); ("agreement", agreement)].

(** The same parameter as the tracking API reports it. *)
Definition tracked (status agreement : value) : value :=
  VDict [("parameter_name", VStr "pH"); ("status", status);
         ("model_status", VStr "production"); ("model_type", VStr "cnn");
         ("prediction", VStr "positive"); ("probability", VFloat p0812);
         ("threshold", VFloat (PyFloat.of_decimal 5 1));
         ("agreement", agreement)].

(** The parameters of the end-to-end example under the key names of an
    InferenceResult ([name] instead of [parameter_name], every field
    present). *)
Definition R1 : value :=
  VDict [("name", VStr "P1"); ("status", VStr "success");
         ("model_status", VStr "production"); ("model_type", VStr "cnn");
         ("prediction", VStr "positive"); ("probability", VFloat p0812);
         ("confidence", VStr "high"); ("ground_truth_raw", VStr "positive");
         ("ground_truth_binary", VInt 1); ("agreement", VBool true)].

Definition R2 : value :=
  VDict [("name", VStr "P2"); ("status", VStr "error");
         ("error", VStr "model load failed")].

Definition inference_abc123 : value :=
  VDict [("submission_id", VStr "abc123"); ("total_parameters", VInt 2);
         ("successful", VInt 1); ("failed", VInt 1);
         ("parameters", VList [R1; R2])].

(** The store after the JSON reader has built [inference_abc123], and the
    name of the document in it. *)
Definition loaded : Heap.outcome Heap.hval * Heap.heap :=
  Heap.encode inference_abc123 ∅.
Definition store : Heap.heap := snd loaded.
Definition document : Heap.hval := Heap.HRef 4.

(** The same for the SubmissionDetail [abc123]; the document is at the
    same address. *)
Definition detail_store : Heap.heap := snd (Heap.encode abc123 ∅).

(** The scalar cells of rows held in the store. *)
Definition plain (rows : list (list (string * Heap.hval))) : list (list (string * value)) :=
  map (map (fun c : string * Heap.hval => (fst c, Heap.scalar (snd c)))) rows.

Definition client : InferenceAPIClient := init "https://api.knoxxi.net/knoxxi-uriscan-inference/".

Definition respond (code : Z) (why : string) (body : option value) : network :=
  fun rq => Responds (Response code why (req_url rq) body).

Definition unreachable : network :=
  fun _ => Fails (mk_exn ConnectionError "Connection refused").

End Samples.

(* ===================================================================== *)
(** * Part II: the properties *)
(* ===================================================================== *)

Import Py.

(** ** The API client *)

Section Client.
Import ApiClient Spec.
Variable net : network.
Variable self : InferenceAPIClient.

Lemma exchange_verdict rq :
  exchange net rq =
  match verdict_of (net rq) with
  | Delivered body => Ok body
  | Failed e => Raise e
  end.
Proof.
  unfold exchange, send, verdict_of.
  destruct (net rq) as [r|e]; cbn; [|reflexivity].
  unfold raise_for_status, error_status, status_error, response_json.
  destruct (400 <=? status_code r)%Z eqn:H4; cbn.
  - destruct (status_code r <? 500)%Z eqn:H5; cbn.
    + assert ((status_code r <? 600)%Z = true) as -> by lia. reflexivity.
    + destruct (500 <=? status_code r)%Z eqn:H5'; [|lia].
      cbn. destruct (status_code r <? 600)%Z; cbn; [reflexivity|].
      destruct (json_body r); reflexivity.
  - assert ((500 <=? status_code r)%Z = false) as -> by lia. cbn.
    destruct (json_body r); reflexivity.
Qed.

Lemma exchange_then {A} rq (k : value -> result A) :
  (response ← send net rq;
   _ ← raise_for_status response;
   data ← response_json response;
   k data)
  = (data ← exchange net rq; k data).
Proof.
  unfold exchange.
  destruct (send net rq) as [r|e]; cbn; [|reflexivity].
  destruct (raise_for_status r); cbn; [|reflexivity].
  destruct (response_json r); reflexivity.
Qed.

Lemma every_exception_is_an_Exception e : isinstance e Exception = true.
Proof. reflexivity. Qed.

(** [health_check] never raises: whatever the network does it returns a
    value; when the exchange fails that value is the dictionary
    [{"status": "error", "error": str(e)}] built from the failure, and
    when a JSON body is delivered it is that body, unchanged.  What is
    returned is therefore a dictionary unless the server delivered a JSON
    body that is not an object. *)
Lemma health_check_never_raises :
  exists v,
    health_check net self = Ok v /\
    match verdict_of (net (Request "GET" (api_base self ++ "/health") [] 5)) with
    | Failed e => v = VDict [("status", VStr "error"); ("error", VStr (exn_str e))]
    | Delivered body => v = body
    end /\
    (is_dict v = false ->
     exists body,
       verdict_of (net (Request "GET" (api_base self ++ "/health") [] 5)) = Delivered body
       /\ is_dict body = false).
Proof.
  unfold health_check.
  change (response ← send net ?rq; _ ← raise_for_status response; response_json response)
    with (exchange net rq).
  rewrite exchange_verdict.
  destruct (verdict_of _) as [body|e]; cbn.
  - exists body. repeat split; eauto.
  - eexists. repeat split. cbn. discriminate.
Qed.

(** C6.  [get_recent_submissions_from_knoxxi] never raises, for every
    [limit] and every behaviour of the network: when the exchange fails it
    prints one line and returns the empty list; when a JSON object is
    delivered it returns the value under its "submissions" key unchanged
    (the empty list when the key is absent). *)
Theorem recent_submissions_never_raises (limit : value) :
  exists printed v,
    get_recent_submissions_from_knoxxi net self limit = (printed, Ok v) /\
    match verdict_of (net (Request "GET" (api_base self ++ "/submissions/recent")
                             [("limit", limit)] 10)) with
    | Failed e =>
        v = VList [] /\ printed = ["Error fetching recent submissions: " ++ exn_str e]
    | Delivered (VDict d) =>
        v = default (VList []) (lookup_key "submissions" d) /\ printed = []
    | Delivered _ => v = VList []
    end.
Proof.
  unfold get_recent_submissions_from_knoxxi.
  set (rq := Request _ _ _ _).
  rewrite exchange_then, exchange_verdict.
  destruct (verdict_of (net rq)) as [body|e]; cbn.
  - destruct body; cbn; eauto.
  - eauto.
Qed.

End Client.

(** C7.  [health_check] does not return a dictionary for every transport
    outcome, although its annotation [Dict[str, Any]] and its docstring
    ("Returns: Health status dictionary") announce one: when [GET /health]
    is answered 200 with the JSON body [[]], the call returns that list,
    and the sidebar of frontend/app.py, which goes on with
    [health.get('status')], raises AttributeError. *)
Theorem health_check_returns_a_list :
  let net := Samples.respond 200 "OK" (Some (VList [])) in
  ApiClient.health_check net Samples.client = Ok (VList [])
  /\ Spec.is_dict (VList []) = false
  /\ exists e,
       (health ← ApiClient.health_check net Samples.client;
        get health "status" VNone) = Raise e
       /\ exn_cls e = AttributeError.
Proof.
  cbv zeta. split; [reflexivity|]. split; [reflexivity|].
  eexists. split; reflexivity.
Qed.

(** ** Not found versus transient failure *)

Section Signals.
Import ApiClient Spec Streamlit.
Variable net : network.
Variable self : InferenceAPIClient.

Lemma guarded_exchange rq not_found prefix :
  try_except (exchange net rq)
    [(HTTPError, fun e =>
        code ← response_status e;
        if (code =? 404)%Z then raise ValueError not_found else Raise e);
     (Exception, fun e => raise Exception (prefix ++ exn_str e))]
  = match verdict_of (net rq) with
    | Delivered body => Ok body
    | Failed e => Raise (reraised not_found prefix e)
    end.
Proof.
  rewrite exchange_verdict.
  destruct (verdict_of (net rq)) as [body|e]; [reflexivity|].
  unfold try_except, dispatch, reraised, isinstance, response_status.
  destruct e as [c msg resp]; cbn [exn_cls exn_response exn_str].
  destruct c; cbn; try reflexivity.
  destruct resp as [r|]; cbn; [|reflexivity].
  destruct (status_code r =? 404)%Z; reflexivity.
Qed.

Lemma reraised_kind rq not_found prefix :
  kind_of (signal_of
    match verdict_of (net rq) with
    | Delivered body => Ok body
    | Failed e => Raise (reraised not_found prefix e)
    end) = expected_kind (net rq).
Proof.
  unfold expected_kind, answered_404, http_status, verdict_of, reraised.
  destruct (net rq) as [r|e].
  - destruct (error_status (status_code r)) eqn:Hs; cbn.
    + destruct (status_code r =? 404)%Z; reflexivity.
    + assert ((status_code r =? 404)%Z = false) as ->
        by (unfold error_status in Hs; lia).
      destruct (json_body r); reflexivity.
  - destruct e as [c msg resp]; cbn [exn_cls exn_response exn_str].
    destruct (exn_class_eqb c HTTPError) eqn:Hc; [|reflexivity].
    destruct resp as [r|]; cbn; [|reflexivity].
    destruct (status_code r =? 404)%Z; [reflexivity|].
    destruct c; try discriminate Hc. reflexivity.
Qed.

(** C3.  For every submission id and every behaviour of the network,
    [run_inference] and [get_submission_detail] give the caller the
    "not found" signal (a [ValueError]) exactly when the server answered
    HTTP 404, the "transient failure" signal (an exception that is not a
    [ValueError]) for every other failure of the exchange, and the
    delivered body otherwise; the exception raised is [reraised] of the
    failure. *)
Theorem not_found_exactly_on_404 (submission_id : string) :
  let post := Request "POST" (api_base self ++ "/inference/" ++ submission_id) [] 60 in
  let fetch :=
    Request "GET" (api_base self ++ "/tracking/submissions/" ++ submission_id) [] 10 in
  (kind_of (signal_of (run_inference net self submission_id)) = expected_kind (net post)
   /\ run_inference net self submission_id =
      match verdict_of (net post) with
      | Delivered body => Ok body
      | Failed e =>
          Raise (reraised ("Submission " ++ submission_id ++ " not found")
                   "Inference failed: " e)
      end)
  /\
  (kind_of (signal_of (get_submission_detail net self submission_id))
     = expected_kind (net fetch)
   /\ get_submission_detail net self submission_id =
      match verdict_of (net fetch) with
      | Delivered body => Ok body
      | Failed e =>
          Raise (reraised
                   ("Submission " ++ submission_id ++ " not found in tracking database")
                   "Failed to fetch submission details: " e)
      end).
Proof.
  intros post fetch.
  assert (Hrun : run_inference net self submission_id =
                 match verdict_of (net post) with
                 | Delivered body => Ok body
                 | Failed e =>
                     Raise (reraised ("Submission " ++ submission_id ++ " not found")
                              "Inference failed: " e)
                 end)
    by apply guarded_exchange.
  assert (Hget : get_submission_detail net self submission_id =
                 match verdict_of (net fetch) with
                 | Delivered body => Ok body
                 | Failed e =>
                     Raise (reraised
                              ("Submission " ++ submission_id
                               ++ " not found in tracking database")
                              "Failed to fetch submission details: " e)
                 end)
    by apply guarded_exchange.
  split; split; trivial.
  - rewrite Hrun. apply reraised_kind.
  - rewrite Hget. apply reraised_kind.
Qed.

(** The pages tell the two signals apart: the detail page shows its
    "run inference first" hint exactly when the server answered 404. *)
Lemma detail_page_hint_exactly_on_404 (submission_id : string) (st : session) :
  let fetch :=
    Request "GET" (api_base self ++ "/tracking/submissions/" ++ strip submission_id) [] 10 in
  exists st' notices,
    DetailPage.load_details net self submission_id st = Ok (st', notices)
    /\ (length notices = 2%nat <-> answered_404 (net fetch) = true)
    /\ (answered_404 (net fetch) = true -> st' = st).
Proof.
  intros fetch. unfold DetailPage.load_details.
  assert (Hk : kind_of (signal_of (get_submission_detail net self (strip submission_id)))
               = expected_kind (net fetch)).
  { unfold get_submission_detail.
    change (response ← send net ?rq; _ ← raise_for_status response; response_json response)
      with (exchange net rq).
    rewrite guarded_exchange. apply reraised_kind. }
  destruct (get_submission_detail net self (strip submission_id)) as [v|e] eqn:E.
  - cbn. do 2 eexists. split; [reflexivity|].
    cbn in Hk. unfold expected_kind in Hk.
    destruct (answered_404 (net fetch)); [discriminate|].
    split; [split; [cbn; lia | discriminate] | discriminate].
  - unfold signal_of in Hk. unfold try_except, dispatch.
    change (Raise e ≫= _) with (@Raise (session * list notice) e).
    cbv beta iota.
    destruct (isinstance e ValueError) eqn:Hv; cbn [kind_of] in Hk.
    + do 2 eexists. split; [reflexivity|].
      unfold expected_kind in Hk.
      destruct (answered_404 (net fetch)); [tauto|].
      destruct (verdict_of (net fetch)); discriminate.
    + rewrite every_exception_is_an_Exception.
      do 2 eexists. split; [reflexivity|].
      unfold expected_kind in Hk.
      destruct (answered_404 (net fetch)); [discriminate|].
      split; [split; [cbn; lia | discriminate] | discriminate].
Qed.

End Signals.

(** ** Stepping through the result monad *)

Lemma bind_Ok {A B} (c : result A) (k : A -> result B) (b : B) :
  c ≫= k = Ok b -> exists a, c = Ok a /\ k a = Ok b.
Proof. destruct c as [a|e]; cbn; [eauto | discriminate]. Qed.

Lemma getitem_Ok (d : list (string * value)) k v :
  getitem (VDict d) k = Ok v <-> lookup_key k d = Some v.
Proof.
  unfold getitem. destruct (lookup_key k d); split; intros H;
    try discriminate; congruence.
Qed.

Lemma get_dict (d : list (string * value)) k dflt :
  get (VDict d) k dflt = Ok (default dflt (lookup_key k d)).
Proof. reflexivity. Qed.

Lemma for_each_Ok {A B} (f : A -> result B) xs ys :
  for_each f xs = Ok ys <-> Forall2 (fun x y => f x = Ok y) xs ys.
Proof.
  revert ys. induction xs as [|x xs IH]; intros ys; cbn.
  - split; [intros [= <-]; constructor | intros H; inversion H; reflexivity].
  - destruct (f x) as [y|e] eqn:Hx.
    + destruct (for_each f xs) as [ys'|e] eqn:Hxs.
      * split.
        -- intros [= <-]. constructor; [assumption | by apply IH].
        -- intros H. inversion H as [|? y' ? ys'' Hy Hys]; subst.
           apply IH in Hys. congruence.
      * split; [discriminate|].
        intros H. inversion H as [|? y' ? ys'' Hy Hys]; subst.
        apply IH in Hys. discriminate.
    + split; [discriminate|].
      intros H. inversion H; subst. congruence.
Qed.

Lemma for_each_total {A B} (f : A -> result B) xs :
  Forall (fun x => exists y, f x = Ok y) xs -> exists ys, for_each f xs = Ok ys.
Proof.
  induction 1 as [|x xs [y Hy] _ [ys IH]]; cbn; [eauto|].
  rewrite Hy, IH. eauto.
Qed.

(** Invert [H : c ≫= k = Ok b] as long as possible, naming nothing. *)
Ltac bind_inversion H :=
  repeat match type of H with
         | mbind _ _ = Ok _ =>
             let a := fresh "a" in
             let Ha := fresh "Ha" in
             apply bind_Ok in H as (a & Ha & H);
             cbv beta zeta in H
         end.

(** ** Badges *)

Section Badges.
Import Table Spec.

(** The legacy table derives the badge the specification asks for, with
    its four categories: error first, then the three values of
    [agreement]. *)
Lemma legacy_badge (d : list (string * value)) (r : row) :
  App.prepare_row (VDict d) = Ok r ->
  exists status agreement,
    lookup_key "status" d = Some status /\
    (eq_str status "error" = false -> lookup_key "agreement" d = Some agreement) /\
    cell r "Agreement" = Some (VStr (expected_badge status agreement)).
Proof.
  intros H. unfold App.prepare_row in H.
  apply bind_Ok in H as (status & Hs & H). apply getitem_Ok in Hs.
  unfold expected_badge.
  destruct (eq_str status "error") eqn:E.
  - bind_inversion H. injection H as <-.
    exists status, VNone. rewrite E.
    split; [assumption|]. split; [congruence | reflexivity].
  - apply bind_Ok in H as (agreement & Ha & H). apply getitem_Ok in Ha.
    cbv beta zeta in H. bind_inversion H. injection H as <-.
    exists status, agreement. rewrite E.
    split; [assumption|]. split; [trivial|].
    cbn. destruct (is_True agreement), (is_False agreement); reflexivity.
Qed.

(** In the legacy table a missing ground truth never looks like a
    disagreement. *)
Lemma legacy_null_is_not_disagree (d : list (string * value)) (r : row) status :
  App.prepare_row (VDict d) = Ok r ->
  lookup_key "status" d = Some status ->
  eq_str status "error" = false ->
  lookup_key "agreement" d = Some VNone ->
  cell r "Agreement" = Some (VStr NO_GROUND_TRUTH).
Proof.
  intros H Hs He Ha.
  destruct (legacy_badge d r H) as (s & a & Hs' & Ha' & Hc).
  rewrite Hs in Hs'. injection Hs' as <-.
  specialize (Ha' He). rewrite Ha in Ha'. injection Ha' as <-.
  rewrite Hc. unfold expected_badge. rewrite He. reflexivity.
Qed.

(** C1 (the code departs from the claim).  [get_agreement_badge] tests the
    truth value of [agreement], so a parameter without ground truth
    ([agreement] is [null]) gets the same badge as a disagreement, on the
    inference page and in the detail view; the legacy table gives the
    same parameter the no-ground-truth badge. *)
Theorem null_agreement_shown_as_disagreement :
  Formatting.get_agreement_badge VNone = DISAGREE
  /\ Formatting.get_agreement_badge (VBool false) = DISAGREE
  /\ (r ← InferencePage.params_row (Samples.unlabelled VNone); Ok (cell r "Agreement"))
     = Ok (Some (VStr DISAGREE))
  /\ (r ← InferencePage.params_row (Samples.unlabelled (VBool false)); Ok (cell r "Agreement"))
     = Ok (Some (VStr DISAGREE))
  /\ (r ← DetailView.table_row (Samples.tracked (VStr "success") VNone);
      Ok (cell r "Agreement", DetailView.highlight_disagreement r))
     = Ok (Some (VStr DISAGREE), "background-color: #f8d7da")
  /\ DetailView.disagreements [Samples.tracked (VStr "success") VNone] = Ok []
  /\ (r ← App.prepare_row (Samples.unlabelled VNone); Ok (cell r "Agreement"))
     = Ok (Some (VStr NO_GROUND_TRUTH)).
Proof. repeat split; vm_compute; reflexivity. Qed.

(** The detail view never looks at [status]: its badge follows
    [agreement] alone. *)
Lemma detail_badge_ignores_status (d : list (string * value)) :
  exists r,
    DetailView.table_row (VDict d) = Ok r /\
    cell r "Agreement"
    = Some (VStr (Formatting.get_agreement_badge (default VNone (lookup_key "agreement" d)))).
Proof. eexists. split; reflexivity. Qed.

(** C2, as the claim states it, fails in the detail view: two parameters
    with status "error" that differ only in [agreement] get different
    badges, neither being an error badge. *)
Lemma detail_error_badge_follows_agreement :
  ~ (forall d r,
       lookup_key "status" d = Some (VStr "error") ->
       DetailView.table_row (VDict d) = Ok r ->
       cell r "Agreement" = Some (VStr ERROR))
  /\ (r ← DetailView.table_row (Samples.tracked (VStr "error") (VBool true));
      Ok (cell r "Agreement")) = Ok (Some (VStr AGREE))
  /\ (r ← DetailView.table_row (Samples.tracked (VStr "error") (VBool false));
      Ok (cell r "Agreement")) = Ok (Some (VStr DISAGREE))
  /\ (r ← DetailView.table_row Samples.P2; Ok (cell r "Agreement"))
     = Ok (Some (VStr DISAGREE)).
Proof.
  split; [|repeat split; vm_compute; reflexivity].
  intros H.
  pose (d := [("parameter_name", VStr "P2"); ("status", VStr "error");
              ("error", VStr "model load failed")]).
  destruct (detail_badge_ignores_status d) as (r & Hr & Hc).
  specialize (H d r eq_refl Hr). rewrite Hc in H. vm_compute in H. discriminate.
Qed.

(** C2 (amended).  For every parameter whose status is "error", whatever
    its [agreement] field holds: the inference page puts the placeholder
    "-" in the Agreement cell, and the legacy table puts the error badge
    there (it raises [KeyError] when the parameter has no [name]).  Both
    differ from the agree, disagree and no-ground-truth badges. *)
Theorem error_rows_ignore_agreement (d : list (string * value)) :
  lookup_key "status" d = Some (VStr "error") ->
  (exists r, InferencePage.params_row (VDict d) = Ok r
             /\ cell r "Agreement" = Some (VStr PLACEHOLDER)
             /\ cell r "Probability" = Some (VStr PLACEHOLDER))
  /\ match lookup_key "name" d with
     | Some _ => exists r, App.prepare_row (VDict d) = Ok r
                           /\ cell r "Agreement" = Some (VStr ERROR)
                           /\ cell r "Probability" = Some (VStr PLACEHOLDER)
     | None => App.prepare_row (VDict d) = raise KeyError "'name'"
     end
  /\ ~ In PLACEHOLDER [AGREE; DISAGREE; NO_GROUND_TRUTH]
  /\ ~ In ERROR [AGREE; DISAGREE; NO_GROUND_TRUTH].
Proof.
  intros Hs. split; [|split; [|split]].
  - unfold InferencePage.params_row, get. rewrite Hs. cbn.
    eexists. repeat split.
  - unfold App.prepare_row, getitem. rewrite Hs. cbn.
    destruct (lookup_key "name" d); cbn; [|reflexivity].
    eexists. repeat split.
  - vm_compute. intuition discriminate.
  - vm_compute. intuition discriminate.
Qed.

Lemma error_rows_ignore_agreement_witness :
  lookup_key "status"
    [("name", VStr "P2"); ("status", VStr "error"); ("agreement", VBool true)]
  = Some (VStr "error")
  /\ exists r, App.prepare_row
                 (VDict [("name", VStr "P2"); ("status", VStr "error");
                         ("agreement", VBool true)]) = Ok r
               /\ cell r "Agreement" = Some (VStr ERROR).
Proof.
  split; [reflexivity|].
  destruct (error_rows_ignore_agreement
              [("name", VStr "P2"); ("status", VStr "error"); ("agreement", VBool true)]
              eq_refl) as (_ & (r & Hr & Hc & _) & _).
  exists r. split; assumption.
Defined.

End Badges.

(** ** Summary counters of the detail view *)

Section Counters.
Import Table Spec DetailView.

Lemma count_agreed_filter (params : list value) :
  Forall (fun p => is_dict p = true) params ->
  count_agreed params = Ok (Z.of_nat (length (List.filter exactly_true params))).
Proof.
  induction 1 as [|p params Hp _ IH]; [reflexivity|].
  destruct p as [| | | | | |d]; try discriminate Hp.
  cbn [count_agreed]. rewrite IH.
  unfold agrees. rewrite get_dict. cbn [mbind result_bind].
  cbn [List.filter].
  change (exactly_true (VDict d))
    with (is_True (default VNone (lookup_key "agreement" d))).
  destruct (is_True (default VNone (lookup_key "agreement" d))); cbn [length].
  - f_equal. lia.
  - reflexivity.
Qed.

Lemma table_row_dict (p : value) (r : row) :
  table_row p = Ok r -> is_dict p = true.
Proof. destruct p; try discriminate. reflexivity. Qed.

Lemma table_rows_dicts (params : list value) (rows : list row) :
  for_each table_row params = Ok rows ->
  Forall (fun p => is_dict p = true) params.
Proof.
  intros H. apply for_each_Ok in H.
  induction H as [|p r ps rs Hp _ IH]; constructor; [|assumption].
  exact (table_row_dict p r Hp).
Qed.

Lemma table_data_total (params : list value) :
  Forall (fun p => is_dict p = true) params ->
  exists rows, for_each table_row params = Ok rows.
Proof.
  intros H. apply for_each_total.
  eapply Forall_impl; [exact H|].
  intros [| | | | | |d] Hd; try discriminate Hd.
  eexists. reflexivity.
Qed.

(** The counters, whenever the function gets as far as showing them. *)
Lemma counters_when_shown (params : list value) (b : breakdown) :
  render_parameter_breakdown (VList params) = Ok (Some b) ->
  agreed_metric b = Z.of_nat (length (List.filter exactly_true params))
  /\ disagreed_metric b = (Z.of_nat (length params) - agreed_metric b)%Z.
Proof.
  unfold render_parameter_breakdown, table_data.
  destruct (negb (truthy (VList params))); [discriminate|].
  cbn [iterate mbind result_bind].
  destruct (for_each table_row params) as [rows|e] eqn:Hrows; [|discriminate].
  cbn [mbind result_bind].
  destruct (formatted_cells (DataFrame rows)) as [texts|e]; [|discriminate].
  cbn [mbind result_bind].
  rewrite (count_agreed_filter _ (table_rows_dicts _ _ Hrows)).
  cbn [mbind result_bind]. intros [= <-]. split; reflexivity.
Qed.

Lemma styled_text_formattable (n : nat) (suffix : string) (v : value) :
  formattable v = true -> exists s, styled_text n suffix v = Ok s.
Proof.
  unfold styled_text.
  destruct v as [|b|z|f| | |]; cbn; try discriminate; intros H.
  - unfold Builtins.int_format_f. destruct b; cbn; eauto.
  - unfold Builtins.int_format_f.
    destruct (PyFloat.of_Z z); try discriminate H; cbn; eauto.
  - eauto.
Qed.

Lemma held_column_formattable (cells : list value) :
  Forall (fun v => formattable v = true) cells -> held_column cells = cells.
Proof.
  intros H. unfold held_column.
  destruct (_ && _); [|reflexivity].
  induction H as [|v vs Hv _ IH]; [reflexivity|].
  cbn [map]. rewrite IH. f_equal.
  destruct v; try discriminate Hv; reflexivity.
Qed.

Lemma nth_column (rows : list row) (i : nat) (r : row) (c : string) (d : value) :
  rows !! i = Some r -> nth i (column_of rows c) d = default VNone (cell r c).
Proof.
  revert i. induction rows as [|r0 rows IH]; intros [|i] H; try discriminate H.
  - injection H as ->. reflexivity.
  - cbn. apply IH, H.
Qed.

Lemma printable_fields (p : value) :
  printable p = true ->
  exists d, p = VDict d
    /\ formattable (default (VInt 0) (lookup_key "agreement_pct" d)) = true
    /\ formattable (default (VInt 0) (lookup_key "probability" d)) = true
    /\ formattable (default (VInt 0) (lookup_key "threshold" d)) = true.
Proof.
  destruct p as [| | | | | |d]; try discriminate.
  cbn [printable forallb]. rewrite !andb_true_iff.
  intros (? & ? & ? & _). eauto.
Qed.

Lemma printable_columns (params : list value) (rows : list row) (c : string) :
  In c (map fst formatters) ->
  Forall (fun p => printable p = true) params ->
  Forall2 (fun p r => table_row p = Ok r) params rows ->
  Forall (fun v => formattable v = true) (column_of rows c).
Proof.
  intros Hc Hp H. induction H as [|p r ps rs Hr _ IH]; [constructor|].
  inversion Hp as [|? ? Hp0 Hps]; subst.
  cbn [column_of map]. constructor; [|exact (IH Hps)].
  destruct (printable_fields p Hp0) as (d & -> & Ha & Hb & Ht).
  injection Hr as <-.
  destruct Hc as [<-|[<-|[<-|[]]]]; assumption.
Qed.

(** The table of printable parameters can be drawn. *)
Lemma printable_table_drawn (params : list value) (rows : list row) :
  Forall (fun p => printable p = true) params ->
  for_each table_row params = Ok rows ->
  exists texts, formatted_cells (DataFrame rows) = Ok texts.
Proof.
  intros Hp Hrows. apply for_each_Ok in Hrows.
  apply for_each_total, Forall_lookup_2. intros i r' Hi.
  unfold DataFrame in Hi. rewrite list_lookup_imap in Hi.
  destruct (rows !! i) as [r|] eqn:Hr; [|discriminate Hi].
  injection Hi as <-.
  destruct (Forall2_lookup_r _ _ _ _ _ Hrows Hr) as (p & Hpi & Hrow).
  pose proof (Forall_lookup_1 _ _ _ _ Hp Hpi) as Hp0. cbn beta in Hp0.
  destruct (printable_fields p Hp0) as (d & -> & Ha & Hb & Ht).
  injection Hrow as Hrow.
  assert (Hcell : forall c, In c (map fst formatters) ->
            nth i (held_column (column_of rows c)) (default VNone (cell r c))
            = default VNone (cell r c)).
  { intros c Hc.
    rewrite (held_column_formattable _ (printable_columns params rows c Hc Hp Hrows)).
    apply nth_column, Hr. }
  pose proof (Hcell "Agreement %" ltac:(cbn; tauto)) as H1.
  pose proof (Hcell "Probability" ltac:(cbn; tauto)) as H2.
  pose proof (Hcell "Threshold" ltac:(cbn; tauto)) as H3.
  subst r. cbn in H1, H2, H3.
  destruct (styled_text_formattable 1 "%" _ Ha) as (sa & Hsa).
  destruct (styled_text_formattable 4 "" _ Hb) as (sb & Hsb).
  destruct (styled_text_formattable 2 "" _ Ht) as (st & Hst).
  unfold formatters, shown, held_row.
  cbn [for_each map fst snd cell lookup_key String.eqb Ascii.eqb Bool.eqb List.find
       mbind result_bind].
  rewrite H1, H2, H3.
  cbv [formatters List.find fst String.eqb Ascii.eqb Bool.eqb].
  rewrite Hsa, Hsb, Hst. cbn [mbind result_bind]. eauto.
Qed.

Lemma length_filter_negb {A} (f : A -> bool) (l : list A) :
  (length (List.filter f l) + length (List.filter (fun x => negb (f x)) l) = length l)%nat.
Proof.
  induction l as [|x l IH]; [reflexivity|].
  cbn. destruct (f x); cbn; lia.
Qed.

(** C10, as the claim states it, fails: a parameter with status "error"
    whose [agreement] is [true] is counted under "Agreed", so the
    "Disagreed" counter does not cover every parameter that has no ground
    truth or has failed. *)
Lemma failed_parameter_counted_as_agreed :
  ~ (forall params b,
       render_parameter_breakdown (VList params) = Ok (Some b) ->
       (Z.of_nat (length (List.filter unlabelled_or_failed params)) <= disagreed_metric b)%Z)
  /\ match render_parameter_breakdown
             (VList [Samples.tracked (VStr "error") (VBool true)]) with
     | Ok (Some b) => agreed_metric b = 1%Z /\ disagreed_metric b = 0%Z
     | _ => False
     end.
Proof.
  split; [|vm_compute; split; reflexivity].
  intros H.
  specialize (H [Samples.tracked (VStr "error") (VBool true)]).
  destruct (render_parameter_breakdown
              (VList [Samples.tracked (VStr "error") (VBool true)]))
    as [[b|]|e] eqn:E; try (vm_compute in E; discriminate).
  specialize (H b eq_refl).
  vm_compute in E. injection E as <-. vm_compute in H. apply H. reflexivity.
Qed.

(** A cell a formatter cannot print hides the counters: a probability
    sent as a string, or a column in which no parameter has a number,
    makes drawing the table raise.  A missing value among numbers is
    printed as nan. *)
Lemma unprintable_cells_hide_the_counters :
  (exists e, render_parameter_breakdown (VList [VDict [("probability", VStr "0.9")]])
             = Raise e /\ exn_cls e = ValueError)
  /\ (exists e, render_parameter_breakdown (VList [VDict [("probability", VNone)]])
                = Raise e /\ exn_cls e = TypeError)
  /\ match render_parameter_breakdown
             (VList [VDict [("probability", VNone)];
                     VDict [("probability", VFloat Samples.p0812)]]) with
     | Ok (Some b) =>
         formatted b = [[Some "0.0%"; Some "nan"; Some "0.00"];
                        [Some "0.0%"; Some "0.8120"; Some "0.00"]]
     | _ => False
     end.
Proof.
  split; [eexists; split; vm_compute; reflexivity|].
  split; [eexists; split; vm_compute; reflexivity|].
  vm_compute. reflexivity.
Qed.

(** C10 (amended).  For every non-empty list of parameter results whose
    formatted fields ([agreement_pct], [probability], [threshold]) are,
    where present, numbers the table can print, the counters are shown:
    the "Agreed" counter is the number of parameters whose [agreement] is
    exactly [true] and the "Disagreed" counter is the total minus that
    number, that is the number of parameters whose [agreement] is not
    exactly [true]: every parameter without ground truth, and every
    parameter with status "error" unless its [agreement] is [true], is
    counted there.  The counters never read [status]. *)
Theorem summary_counters (params : list value) :
  params <> [] ->
  Forall (fun p => printable p = true) params ->
  exists b,
    render_parameter_breakdown (VList params) = Ok (Some b)
    /\ agreed_metric b = Z.of_nat (length (List.filter exactly_true params))
    /\ disagreed_metric b = (Z.of_nat (length params) - agreed_metric b)%Z
    /\ disagreed_metric b
       = Z.of_nat (length (List.filter (fun p => negb (exactly_true p)) params))
    /\ (forall p, In p params ->
          is_None (field "agreement" p) = true
          \/ (eq_str (field "status" p) "error" = true /\ exactly_true p = false) ->
          In p (List.filter (fun p => negb (exactly_true p)) params)).
Proof.
  intros Hne Hp.
  assert (Hd : Forall (fun p => is_dict p = true) params).
  { eapply Forall_impl; [exact Hp|]. intros p H.
    destruct (printable_fields p H) as (d & -> & _). reflexivity. }
  destruct (table_data_total params Hd) as [rows Hrows].
  destruct (printable_table_drawn params rows Hp Hrows) as [texts Htexts].
  assert (Hb : exists b, render_parameter_breakdown (VList params) = Ok (Some b)).
  { unfold render_parameter_breakdown, table_data.
    destruct params as [|p0 params']; [congruence|].
    cbn [truthy negb iterate mbind result_bind].
    rewrite Hrows. cbn [mbind result_bind].
    rewrite Htexts. cbn [mbind result_bind].
    rewrite (count_agreed_filter _ Hd). cbn [mbind result_bind]. eauto. }
  destruct Hb as [b Hb]. exists b. split; [exact Hb|].
  destruct (counters_when_shown params b Hb) as [Ha Hdis].
  split; [exact Ha|]. split; [exact Hdis|]. split.
  - rewrite Hdis, Ha.
    pose proof (length_filter_negb exactly_true params). lia.
  - intros p Hin Hq. apply filter_In. split; [assumption|].
    destruct Hq as [Hnone|[_ ->]]; [|reflexivity].
    unfold exactly_true. destruct (field "agreement" p); try discriminate Hnone.
    reflexivity.
Qed.

Lemma summary_counters_witness :
  exists b,
    render_parameter_breakdown (VList [Samples.P1; Samples.P2]) = Ok (Some b)
    /\ agreed_metric b = 1%Z /\ disagreed_metric b = 1%Z.
Proof.
  destruct (summary_counters [Samples.P1; Samples.P2]) as (b & Hb & Ha & Hd & _).
  - discriminate.
  - repeat constructor.
  - exists b. split; [assumption|]. rewrite Hd, Ha. split; reflexivity.
Defined.

End Counters.

(** ** The end-to-end example *)

Section EndToEnd.
Import Table Spec.

(** C8, as the claim states it, fails: on the SubmissionDetail of the
    example the legacy [prepare_results_dataframe] raises [KeyError]
    (the document has no [name] key) and produces no row, and the detail
    view, which is the consumer of a SubmissionDetail, shows the second
    parameter with the disagree badge and the probability text
    "0.0000". *)
Lemma example_rows_not_as_announced :
  App.prepare_results_dataframe Samples.abc123 = raise KeyError "'name'"
  /\ ~ (exists rows, App.prepare_results_dataframe Samples.abc123 = Ok rows
                     /\ rows_of_the_example rows)
  /\ match DetailView.render_parameter_breakdown (VList [Samples.P1; Samples.P2]) with
     | Ok (Some b) =>
         map (fun r => cell r "Agreement") (DetailView.table b)
         = [Some (VStr "✅"); Some (VStr "❌")]
         /\ for_each (fun r => DetailView.shown r "Probability") (DetailView.table b)
            = Ok [Some "0.8120"; Some "0.0000"]
     | _ => False
     end.
Proof.
  split; [vm_compute; reflexivity|]. split; [|vm_compute; split; reflexivity].
  intros (rows & H & _). vm_compute in H. discriminate.
Qed.

(** C8 (amended).  On the SubmissionDetail of the example the row shaping
    of the inference page produces exactly two rows: the first carries the
    agree badge and the probability text "0.812", the second carries the
    placeholder "-" in the Agreement and in the Probability cell.  On the
    same two parameters written as an InferenceResult (key [name], every
    field present) the legacy [prepare_results_dataframe] produces exactly
    two rows, the first with the agree badge and "0.812", the second with
    the error badge and "-". *)
Theorem example_rows :
  InferencePage.params_data Samples.abc123
  = Ok (Some
      [ [("Parameter", VStr "N/A"); ("Model", VStr "N/A"); ("Prediction", VStr "N/A");
         ("Ground Truth", VStr "N/A"); ("Agreement", VStr "✅");
         ("Probability", VStr "0.812")];
        [("Parameter", VStr "N/A"); ("Model", VStr "-"); ("Prediction", VStr "-");
         ("Ground Truth", VStr "-"); ("Agreement", VStr "-");
         ("Probability", VStr "-")] ])
  /\ exists r1 r2,
       App.prepare_results_dataframe Samples.inference_abc123 = Ok [r1; r2]
       /\ cell r1 "Agreement" = Some (VStr AGREE)
       /\ cell r1 "Probability" = Some (VStr "0.812")
       /\ cell r2 "Agreement" = Some (VStr ERROR)
       /\ cell r2 "Probability" = Some (VStr PLACEHOLDER).
Proof.
  split; [vm_compute; reflexivity|].
  do 2 eexists. split; [vm_compute; reflexivity|].
  repeat split.
Qed.

End EndToEnd.

(** ** Numbers on screen and in the CSV export *)

Section CsvExport.
Import Table Spec.

Lemma needs_quotes_app (a b : string) :
  needs_quotes (a ++ b) = needs_quotes a || needs_quotes b.
Proof.
  induction a as [|c a IH]; [reflexivity|].
  change (needs_quotes (String c a ++ b))
    with (special c || needs_quotes (a ++ b)).
  rewrite IH. apply orb_assoc.
Qed.

Lemma digits_need_no_quotes (u : Decimal.uint) :
  needs_quotes (NilEmpty.string_of_uint u) = false.
Proof. induction u; cbn; trivial. Qed.

Lemma dec_needs_no_quotes (z : Z) : needs_quotes (PyFloat.dec z) = false.
Proof.
  unfold PyFloat.dec, NilZero.string_of_uint.
  destruct (N.to_uint (Z.to_N z)) eqn:E; try reflexivity;
    rewrite <- E; apply digits_need_no_quotes.
Qed.

Lemma zeros_need_no_quotes (n : nat) : needs_quotes (PyFloat.zeros n) = false.
Proof. induction n; cbn; trivial. Qed.

Lemma fixed_digits_need_no_quotes (n : nat) (z : Z) :
  needs_quotes (PyFloat.fixed_digits n z) = false.
Proof.
  unfold PyFloat.fixed_digits, PyFloat.pad_left.
  destruct n; rewrite !needs_quotes_app, ?dec_needs_no_quotes,
    ?zeros_need_no_quotes; reflexivity.
Qed.

(** A number printed in fixed-point notation is written to the CSV file as
    it is, without quotes. *)
Lemma format_f_needs_no_quotes (n : nat) (x : spec_float) :
  needs_quotes (PyFloat.format_f n x) = false.
Proof.
  destruct x as [s|s| |s m e]; cbn [PyFloat.format_f];
    rewrite ?needs_quotes_app, ?fixed_digits_need_no_quotes;
    try destruct s; reflexivity.
Qed.

Lemma int_format_f_Ok (n : nat) (z : Z) (s : string) :
  Builtins.int_format_f n z = Ok s -> s = PyFloat.format_f n (PyFloat.of_Z z).
Proof.
  unfold Builtins.int_format_f.
  destruct (PyFloat.of_Z z); intros H; try discriminate H;
    injection H as <-; reflexivity.
Qed.

Lemma format_spec_f_needs_no_quotes (n : nat) (v : value) (s : string) :
  Builtins.format_spec_f n v = Ok s -> needs_quotes s = false.
Proof.
  intros H. destruct v; cbn [Builtins.format_spec_f] in H; try discriminate H.
  - apply int_format_f_Ok in H as ->. apply format_f_needs_no_quotes.
  - apply int_format_f_Ok in H as ->. apply format_f_needs_no_quotes.
  - injection H as <-. apply format_f_needs_no_quotes.
Qed.

(** The Probability cell of a row of the legacy table: a text, either the
    placeholder or the probability with three decimals. *)
Lemma legacy_probability_cell (param : value) (r : row) :
  App.prepare_row param = Ok r ->
  exists s,
    cell r "Probability" = Some (VStr s)
    /\ needs_quotes s = false
    /\ (s = "-"
        \/ exists p, getitem param "probability" = Ok p
                     /\ Builtins.format_spec_f 3 p = Ok s).
Proof.
  intros H. unfold App.prepare_row in H.
  apply bind_Ok in H as (status & Hs & H).
  destruct (eq_str status "error").
  - bind_inversion H. injection H as <-.
    exists "-". repeat split. left. reflexivity.
  - bind_inversion H. injection H as <-.
    match goal with
    | Hf : Builtins.format_spec_f 3 ?p = Ok ?s |- _ =>
        exists s; split; [reflexivity|]; split;
        [exact (format_spec_f_needs_no_quotes _ _ _ Hf) | right; exists p; auto]
    end.
Qed.

(** The CSV fields of a column of plain texts are those texts. *)
Lemma csv_column_of_texts (df : dataframe) (c : string) :
  Forall (fun r => exists s, cell r c = Some (VStr s) /\ needs_quotes s = false) df ->
  csv_column (column_of df c) = map (fun r => cell r c ≫= shown_text) df.
Proof.
  intros H. unfold csv_column, infer_column.
  assert (Hcells : forallb numeric_or_missing (column_of df c)
                   && existsb float_or_missing (column_of df c) = false).
  { destruct H as [|r df (s & Hs & _) _]; [reflexivity|].
    cbn. rewrite Hs. reflexivity. }
  rewrite Hcells. clear Hcells. unfold column_of. rewrite map_map.
  induction H as [|r df (s & Hs & Hq) _ IH]; [reflexivity|].
  cbn [map]. rewrite IH, Hs. cbn. unfold csv_text. rewrite Hq. reflexivity.
Qed.

(** C4, as the claim states it, fails on the detail page: the table shows
    the probability with four decimals, not three, and the export writes the
    raw values, so the texts differ ("0.8120" against "0.812", "0.0000"
    against the empty field). *)
Lemma detail_export_differs_from_screen :
  match DetailView.render_parameter_breakdown (VList [Samples.P1; Samples.P2]),
        DetailPage.export_data Samples.abc123 with
  | Ok (Some b), Ok exported =>
      for_each (fun r => DetailView.shown r "Probability") (DetailView.table b)
      = Ok [Some "0.8120"; Some "0.0000"]
      /\ csv_column (column_of exported "Probability") = [Some "0.812"; Some ""]
      /\ Builtins.format_spec_f 3 (VFloat Samples.p0812) = Ok "0.812"
      /\ [Some "0.8120"; Some "0.0000"] <> [Some "0.812"; Some ""]
  | _, _ => False
  end.
Proof. vm_compute. repeat split; discriminate. Qed.

(** C4 (amended).  In the legacy application the CSV export is written
    from the very rows shown on screen: the Probability cell is a text, the
    placeholder "-" or the probability with three decimals, and its CSV
    field is that text character for character.  On the detail page the
    table shows the agreement percentage with one decimal, the probability
    with four and the threshold with two (a missing value counts as 0),
    while the export carries the raw, unformatted values of the
    parameter. *)
Theorem export_against_screen (results : value) (df : dataframe)
    (details param : list (string * value)) :
  App.prepare_results_dataframe results = Ok df ->
  (csv_column (column_of df "Probability")
   = map (fun r => cell r "Probability" ≫= shown_text) df
   /\ Forall (fun r => exists s,
                cell r "Probability" = Some (VStr s)
                /\ (s = "-" \/ exists p, Builtins.format_spec_f 3 p = Ok s)) df)
  /\
  (exists shown_row exported_row,
     DetailView.table_row (VDict param) = Ok shown_row
     /\ DetailPage.export_row (VDict details) (VDict param) = Ok exported_row
     /\ DetailView.shown shown_row "Agreement %"
        = (s ← styled_text 1 "%" (default (VInt 0) (lookup_key "agreement_pct" param));
           Ok (Some s))
     /\ DetailView.shown shown_row "Probability"
        = (s ← styled_text 4 "" (default (VInt 0) (lookup_key "probability" param));
           Ok (Some s))
     /\ DetailView.shown shown_row "Threshold"
        = (s ← styled_text 2 "" (default (VInt 0) (lookup_key "threshold" param));
           Ok (Some s))
     /\ cell exported_row "Probability"
        = Some (default VNone (lookup_key "probability" param))
     /\ cell exported_row "Threshold"
        = Some (default VNone (lookup_key "threshold" param))).
Proof.
  intros H. split.
  - unfold App.prepare_results_dataframe in H. bind_inversion H.
    apply for_each_Ok in H.
    assert (Hcells : Forall (fun r => exists s,
                        cell r "Probability" = Some (VStr s)
                        /\ needs_quotes s = false
                        /\ (s = "-" \/ exists p, Builtins.format_spec_f 3 p = Ok s)) df).
    { clear Ha Ha0.
      induction H as [|p r ps rs Hp _ IH]; [constructor|].
      constructor; [|assumption].
      destruct (legacy_probability_cell p r Hp) as (s & Hc & Hq & Hs).
      exists s. repeat split; trivial.
      destruct Hs as [->|(q & _ & Hq')]; [left; reflexivity | right; eauto]. }
    split.
    + apply csv_column_of_texts.
      eapply Forall_impl; [exact Hcells|]. intros r (s & ? & ? & _). eauto.
    + eapply Forall_impl; [exact Hcells|]. intros r (s & ? & _ & ?). eauto.
  - do 2 eexists. repeat split.
Qed.

Lemma export_against_screen_witness :
  exists df,
    App.prepare_results_dataframe Samples.inference_abc123 = Ok df
    /\ csv_column (column_of df "Probability")
       = map (fun r => cell r "Probability" ≫= shown_text) df
    /\ csv_column (column_of df "Probability") = [Some "0.812"; Some "-"].
Proof.
  destruct (App.prepare_results_dataframe Samples.inference_abc123) as [df|e] eqn:E;
    [|vm_compute in E; discriminate].
  exists df. split; [reflexivity|].
  destruct (export_against_screen Samples.inference_abc123 df [] [] E) as [[Hcsv _] _].
  split; [exact Hcsv|].
  vm_compute in E. injection E as <-. vm_compute. reflexivity.
Defined.

End CsvExport.

(** ** Comparing binary64 numbers *)

Section FloatOrder.
Import Exact.

Lemma digits2_bounds (m : positive) :
  (2 ^ (Zpos (digits2_pos m) - 1) <= Zpos m < 2 ^ Zpos (digits2_pos m))%Z.
Proof.
  induction m as [m IH|m IH|]; cbn [digits2_pos].
  - rewrite Pos2Z.inj_succ.
    replace (Z.succ (Zpos (digits2_pos m)) - 1)%Z
      with (Z.succ (Zpos (digits2_pos m) - 1)) by lia.
    rewrite !Z.pow_succ_r by lia. lia.
  - rewrite Pos2Z.inj_succ.
    replace (Z.succ (Zpos (digits2_pos m)) - 1)%Z
      with (Z.succ (Zpos (digits2_pos m) - 1)) by lia.
    rewrite !Z.pow_succ_r by lia. lia.
  - cbn. lia.
Qed.

(** What being canonical says about a mantissa and its exponent: at most 53
    bits, an exponent of at least -1074, and exactly 53 bits above the
    smallest exponent. *)
Lemma bounded_facts (m : positive) (e : Z) :
  bounded PyFloat.prec PyFloat.emax m e = true ->
  (Zpos m < 2 ^ 53 /\ -1074 <= e /\ (-1074 < e -> 2 ^ 52 <= Zpos m))%Z.
Proof.
  unfold bounded, canonical_mantissa, fexp, emin, PyFloat.prec, PyFloat.emax.
  intros H. apply andb_prop in H as [H _]. apply Z.eqb_eq in H.
  pose proof (digits2_bounds m) as [Hlo Hhi].
  set (d := Zpos (digits2_pos m)) in *.
  assert (Hd : (0 < d)%Z) by (unfold d; lia).
  repeat split.
  - assert (d <= 53)%Z by lia.
    eapply Z.lt_le_trans; [exact Hhi|]. apply Z.pow_le_mono_r; lia.
  - lia.
  - intros He. assert (d = 53)%Z as Hd53 by lia.
    rewrite Hd53 in Hlo. exact Hlo.
Qed.

Lemma pow2_pos (e : Z) : (0 < 2 ^ e)%Q.
Proof. apply Qpower_0_lt. reflexivity. Qed.

Lemma mag_pos (m : positive) (e : Z) : (0 < mag m e)%Q.
Proof.
  unfold mag. apply Qmult_lt_0_compat; [reflexivity | apply pow2_pos].
Qed.

(** Shift the smaller exponent out: [m * 2^(e + k) = (m * 2^k) * 2^e]. *)
Lemma mag_shift (m : positive) (e k : Z) :
  (0 <= k)%Z -> (mag m (e + k) == inject_Z (Zpos m * 2 ^ k) * 2 ^ e)%Q.
Proof.
  intros Hk. unfold mag.
  rewrite Qpower_plus by discriminate.
  rewrite inject_Z_mult, (Zpower_Qpower 2 k Hk).
  change (inject_Z 2) with 2%Q.
  generalize (2 ^ e)%Q (2 ^ k)%Q (inject_Z (Zpos m)). intros a b c. ring.
Qed.

Lemma mag_lt_exponent (m1 m2 : positive) (e1 e2 : Z) :
  (Zpos m1 < 2 ^ 53)%Z -> (2 ^ 52 <= Zpos m2)%Z -> (e1 < e2)%Z ->
  (mag m1 e1 < mag m2 e2)%Q.
Proof.
  intros H1 H2 He.
  replace e2 with (e1 + (e2 - e1))%Z by lia.
  rewrite mag_shift by lia. unfold mag.
  apply Qmult_lt_compat_r; [apply pow2_pos|].
  rewrite <- Zlt_Qlt.
  assert (2 ^ 1 <= 2 ^ (e2 - e1))%Z by (apply Z.pow_le_mono_r; lia).
  change (2 ^ 1)%Z with 2%Z in *. change (2 ^ 53)%Z with (2 ^ 52 * 2)%Z in H1.
  nia.
Qed.

Lemma mag_compare_mantissa (m1 m2 : positive) (e : Z) :
  (mag m1 e ?= mag m2 e)%Q = (m1 ?= m2)%positive.
Proof.
  destruct (Pos.compare_spec m1 m2) as [->|H|H].
  - apply Qeq_alt. reflexivity.
  - apply Qlt_alt. unfold mag. apply Qmult_lt_compat_r; [apply pow2_pos|].
    rewrite <- Zlt_Qlt. lia.
  - apply Qgt_alt. unfold mag. apply Qmult_lt_compat_r; [apply pow2_pos|].
    rewrite <- Zlt_Qlt. lia.
Qed.

(** On canonical mantissas the order of floats, exponent first and then
    mantissa, is the order of the values. *)
Lemma mag_compare (m1 m2 : positive) (e1 e2 : Z) :
  bounded PyFloat.prec PyFloat.emax m1 e1 = true ->
  bounded PyFloat.prec PyFloat.emax m2 e2 = true ->
  match (e1 ?= e2)%Z with
  | Lt => Lt
  | Gt => Gt
  | Eq => Pos.compare_cont Eq m1 m2
  end = (mag m1 e1 ?= mag m2 e2)%Q.
Proof.
  intros B1 B2.
  apply bounded_facts in B1 as (H1 & L1 & N1).
  apply bounded_facts in B2 as (H2 & L2 & N2).
  destruct (Z.compare_spec e1 e2) as [->|He|He].
  - symmetry. apply mag_compare_mantissa.
  - symmetry. apply Qlt_alt. apply mag_lt_exponent; auto. apply N2. lia.
  - symmetry. apply Qgt_alt. apply mag_lt_exponent; auto. apply N1. lia.
Qed.

Lemma xle_compare (a b : xnum) : xle a b <-> xcompare a b <> Gt.
Proof.
  destruct a as [|p|], b as [|q|]; cbn; try (split; [discriminate|tauto]);
    try (split; [tauto|congruence]).
  rewrite Qle_alt. tauto.
Qed.

Lemma xlt_compare (a b : xnum) : xlt a b <-> xcompare a b = Lt.
Proof.
  destruct a as [|p|], b as [|q|]; cbn; try (split; [tauto|discriminate]);
    try (split; [reflexivity|trivial]).
  apply Qlt_alt.
Qed.

Lemma xlt_not_le (a b : xnum) : xlt a b <-> ~ xle b a.
Proof.
  destruct a as [|p|], b as [|q|]; cbn; try tauto.
  split; [apply Qlt_not_le | apply Qnot_le_lt].
Qed.

Lemma xle_trans (a b c : xnum) : xle a b -> xle b c -> xle a c.
Proof.
  destruct a as [|p|], b as [|q|], c as [|r|]; cbn; try tauto.
  apply Qle_trans.
Qed.

Lemma xle_Qeq (p q : Q) (x : xnum) : (p == q)%Q -> xle (Fin p) x <-> xle (Fin q) x.
Proof. intros H. destruct x as [|r|]; cbn; [tauto| |tauto]. rewrite H. tauto. Qed.

Lemma Qcompare_opp (p q : Q) : (- p ?= - q)%Q = (q ?= p)%Q.
Proof.
  unfold Qcompare, Qopp. cbn [Qnum Qden].
  rewrite !Z.mul_opp_l. apply Z.compare_opp.
Qed.

Lemma Qcompare_neg_pos (p q : Q) : (0 < p)%Q -> (0 < q)%Q -> (- p ?= q)%Q = Lt.
Proof.
  intros Hp Hq. apply Qlt_alt. apply Qlt_trans with 0%Q; [|assumption].
  apply (Qopp_lt_compat 0 p) in Hp. exact Hp.
Qed.

Lemma Qcompare_pos_neg (p q : Q) : (0 < p)%Q -> (0 < q)%Q -> (p ?= - q)%Q = Gt.
Proof.
  intros Hp Hq. apply Qgt_alt. apply Qlt_trans with 0%Q; [|assumption].
  apply (Qopp_lt_compat 0 q) in Hq. exact Hq.
Qed.

(** [SFcompare] on canonical floats is the comparison of their values. *)
Lemma SFcompare_exact (x y : spec_float) (vx vy : xnum) :
  valid_binary PyFloat.prec PyFloat.emax x = true ->
  valid_binary PyFloat.prec PyFloat.emax y = true ->
  float_value x = Some vx -> float_value y = Some vy ->
  SFcompare x y = Some (xcompare vx vy).
Proof.
  intros Vx Vy Hx Hy.
  destruct x as [sx|sx| |sx mx ex], y as [sy|sy| |sy my ey];
    cbn [float_value] in Hx, Hy; try discriminate;
    injection Hx as <-; injection Hy as <-; cbn [valid_binary] in Vx, Vy.
  - reflexivity.
  - destruct sy; reflexivity.
  - cbn. f_equal. destruct sy; symmetry.
    + apply Qgt_alt. apply (Qopp_lt_compat 0 (mag my ey)), mag_pos.
    + apply Qlt_alt. apply mag_pos.
  - destruct sx; reflexivity.
  - destruct sx, sy; reflexivity.
  - destruct sx; reflexivity.
  - cbn. f_equal. destruct sx; symmetry.
    + apply Qlt_alt. apply (Qopp_lt_compat 0 (mag mx ex)), mag_pos.
    + apply Qgt_alt. apply mag_pos.
  - destruct sy; reflexivity.
  - cbn [SFcompare xcompare]. f_equal.
    destruct sx, sy.
    + rewrite Qcompare_opp, <- (mag_compare my mx ey ex Vy Vx).
      rewrite (Z.compare_antisym ex ey).
      destruct (ex ?= ey)%Z; cbn [CompOpp]; try reflexivity.
      apply Pos.compare_cont_antisym.
    + symmetry. apply Qcompare_neg_pos; apply mag_pos.
    + symmetry. apply Qcompare_pos_neg; apply mag_pos.
    + apply mag_compare; assumption.
Qed.

End FloatOrder.

(** ** The agreement-rate indicator *)

Section Indicator.
Import Exact Spec Formatting.

Lemma ge_int_exact (k : Z) (pct : value) (x : xnum) :
  In k [80; 50]%Z ->
  wellformed pct = true ->
  number pct = Some x ->
  exists b, Builtins.ge_int pct k = Ok b
            /\ (b = true <-> xle (Fin (inject_Z k)) x).
Proof.
  intros Hk Hw Hx.
  destruct pct as [|b|z|f| | |]; cbn [number] in Hx; try discriminate.
  - injection Hx as <-. eexists. split; [reflexivity|].
    cbn [xle]. rewrite <- Zle_Qle. apply Z.leb_le.
  - injection Hx as <-. eexists. split; [reflexivity|].
    cbn [xle]. rewrite <- Zle_Qle. apply Z.leb_le.
  - cbn [wellformed] in Hw. eexists. split; [reflexivity|].
    unfold PyFloat.ge, SFleb.
    assert (Hc : exists vk,
               SFcompare (PyFloat.of_Z k) f = Some (xcompare vk x)
               /\ (xle vk x <-> xle (Fin (inject_Z k)) x)).
    { destruct Hk as [<-|[<-|[]]].
      - eexists. split.
        + apply SFcompare_exact; [reflexivity | assumption | reflexivity | assumption].
        + apply xle_Qeq. reflexivity.
      - eexists. split.
        + apply SFcompare_exact; [reflexivity | assumption | reflexivity | assumption].
        + apply xle_Qeq. reflexivity. }
    destruct Hc as (vk & -> & <-).
    rewrite xle_compare.
    destruct (xcompare vk x); split; intros H; try reflexivity;
      try discriminate; congruence.
Qed.

Lemma indicator_by_tests (pct : value) (x : xnum) :
  wellformed pct = true ->
  number pct = Some x ->
  exists high medium,
    (high = true <-> xle (Fin 80) x)
    /\ (medium = true <-> xle (Fin 50) x)
    /\ get_agreement_indicator pct
       = Ok (if high then HIGH else if medium then MEDIUM else LOW).
Proof.
  intros Hw Hx.
  destruct (ge_int_exact 80 pct x) as (a & Ha & Ia); [cbn; tauto | trivial..|].
  destruct (ge_int_exact 50 pct x) as (b & Hb & Ib); [cbn; tauto | trivial..|].
  exists a, b. split; [exact Ia|]. split; [exact Ib|].
  unfold get_agreement_indicator. rewrite Ha. cbn [mbind result_bind].
  destruct a; [reflexivity|]. rewrite Hb. cbn [mbind result_bind].
  destruct b; reflexivity.
Qed.

Lemma fifty_below_eighty (x : xnum) : xle (Fin 80) x -> xle (Fin 50) x.
Proof. apply xle_trans. cbn. discriminate. Qed.

(** What is not a number gets no indicator: the first comparison raises
    TypeError.  This is the case of [null], of a string and of a nested
    value; NaN is the one value without an exact value that is compared. *)
Lemma indicator_of_no_number (v : value) :
  number v = None -> v <> VFloat S754_nan ->
  exists e, get_agreement_indicator v = Raise e /\ exn_cls e = TypeError.
Proof.
  intros Hn Hnan.
  destruct v as [|b|z|f|s|l|d]; cbn in Hn; try discriminate;
    try (eexists; split; reflexivity).
  destruct f; cbn in Hn; try discriminate. congruence.
Qed.

(** C5 (amended).  For every number [pct] (an [int], or a
    [float] other than NaN) the indicator is the high one exactly when
    [pct >= 80], the medium one exactly when [50 <= pct < 80], the low one
    exactly when [pct < 50]; and it is monotonic: a larger percentage
    never gets a lower tier.  NaN gets the low indicator, and a value that
    is not a number ([null] for one) gets none: TypeError is raised. *)
Theorem indicator_tiers (pct pct' : value) (x x' : xnum) :
  wellformed pct = true -> number pct = Some x ->
  wellformed pct' = true -> number pct' = Some x' ->
  (get_agreement_indicator pct = Ok HIGH <-> xle (Fin 80) x)
  /\ (get_agreement_indicator pct = Ok MEDIUM <-> xle (Fin 50) x /\ xlt x (Fin 80))
  /\ (get_agreement_indicator pct = Ok LOW <-> xlt x (Fin 50))
  /\ (xle x x' ->
      exists r r', rank (get_agreement_indicator pct) = Some r
                   /\ rank (get_agreement_indicator pct') = Some r'
                   /\ (r <= r')%nat)
  /\ get_agreement_indicator (VFloat S754_nan) = Ok LOW
  /\ (forall v, number v = None -> v <> VFloat S754_nan ->
      exists e, get_agreement_indicator v = Raise e /\ exn_cls e = TypeError).
Proof.
  intros Hw Hx Hw' Hx'.
  destruct (indicator_by_tests pct x Hw Hx) as (a & b & Ia & Ib & ->).
  destruct (indicator_by_tests pct' x' Hw' Hx') as (a' & b' & Ia' & Ib' & ->).
  rewrite !xlt_not_le.
  pose proof (fifty_below_eighty x) as H58.
  split; [|split; [|split; [|split; [|split;
    [reflexivity | exact indicator_of_no_number]]]]].
  - split.
    + destruct a; [intros _; apply Ia; reflexivity|].
      destruct b; intros H; vm_compute in H; discriminate.
    + intros H. apply Ia in H as ->. reflexivity.
  - split.
    + destruct a; [intros H; vm_compute in H; discriminate|].
      destruct b; [|intros H; vm_compute in H; discriminate].
      intros _. split; [apply Ib; reflexivity|].
      intros H. apply Ia in H. discriminate.
    + intros [H5 H8]. apply Ib in H5 as ->.
      destruct a; [exfalso; apply H8, Ia; reflexivity | reflexivity].
  - split.
    + destruct a; [intros H; vm_compute in H; discriminate|].
      destruct b; [intros H; vm_compute in H; discriminate|].
      intros _ H. apply Ib in H. discriminate.
    + intros H. destruct b; [exfalso; apply H, Ib; reflexivity|].
      destruct a; [|reflexivity].
      exfalso. apply H, H58, Ia. reflexivity.
  - intros Hle.
    exists (tier a b), (tier a' b'). split; [|split].
    + destruct a, b; reflexivity.
    + destruct a', b'; reflexivity.
    + assert (Ha : a = true -> a' = true).
      { intros E. apply Ia'. eapply xle_trans; [|exact Hle]. apply Ia, E. }
      assert (Hb : b = true -> b' = true).
      { intros E. apply Ib'. eapply xle_trans; [|exact Hle]. apply Ib, E. }
      assert (Hab : a' = true -> b' = true).
      { intros E. apply Ib', fifty_below_eighty, Ia', E. }
      destruct a, b, a', b'; cbn; try lia;
        try (specialize (Ha eq_refl)); try (specialize (Hb eq_refl));
        try (specialize (Hab eq_refl)); discriminate.
Qed.

(** C5, as the claim states it, fails at two values the field can
    hold.  At NaN the indicator is the low one although [NaN < 50] is
    false; at [null], which [sub.get('overall_agreement_pct', 0)] hands
    over when the key is present with no value, no indicator is produced:
    the comparison raises TypeError. *)
Lemma indicator_low_at_nan_none_at_null :
  (get_agreement_indicator (VFloat S754_nan) = Ok LOW
   /\ lt_int (VFloat S754_nan) 50 = Ok false)
  /\ (exists e, get_agreement_indicator VNone = Raise e /\ exn_cls e = TypeError).
Proof.
  split; [split; reflexivity|]. eexists. split; reflexivity.
Qed.

(** The four values named by the specification. *)
Lemma indicator_at_the_thresholds :
  get_agreement_indicator (VFloat (PyFloat.of_decimal 800 1)) = Ok HIGH
  /\ get_agreement_indicator (VFloat (PyFloat.of_decimal 799 1)) = Ok MEDIUM
  /\ get_agreement_indicator (VFloat (PyFloat.of_decimal 500 1)) = Ok MEDIUM
  /\ get_agreement_indicator (VFloat (PyFloat.of_decimal 499 1)) = Ok LOW
  /\ get_agreement_indicator (VInt 80) = Ok HIGH
  /\ get_agreement_indicator (VInt 0) = Ok LOW
  /\ get_agreement_indicator (VFloat S754_nan) = Ok LOW.
Proof. repeat split; vm_compute; reflexivity. Qed.

Lemma indicator_tiers_witness :
  (get_agreement_indicator (VFloat (PyFloat.of_decimal 799 1)) = Ok MEDIUM
   <-> xle (Fin 50) (Fin (mag 5622462659795354 (-46)))
       /\ xlt (Fin (mag 5622462659795354 (-46))) (Fin 80))
  /\ exists r r',
       rank (get_agreement_indicator (VFloat (PyFloat.of_decimal 799 1))) = Some r
       /\ rank (get_agreement_indicator (VInt 80)) = Some r'
       /\ (r <= r')%nat.
Proof.
  destruct (indicator_tiers (VFloat (PyFloat.of_decimal 799 1)) (VInt 80)
              (Fin (mag 5622462659795354 (-46))) (Fin (inject_Z 80))
              eq_refl eq_refl eq_refl eq_refl) as (_ & Hm & _ & Hmono & _).
  split; [exact Hm|].
  apply Hmono. cbn. unfold Qle. vm_compute. discriminate.
Defined.

End Indicator.

(** ** Row shaping over the shared store *)

Section Store.
Import Heap.
Variable h0 : heap.

Lemma reads_bind {A B C D} (R : A -> B -> Prop) (S : C -> D -> Prop)
    (m : M A) (r : result B) (k : A -> M C) (kp : B -> result D) :
  reads h0 R m r ->
  (forall a b, R a b -> reads h0 S (k a) (kp b)) ->
  reads h0 S (m ≫= k) (r ≫= kp).
Proof.
  intros Hm Hk. destruct r as [b|e]; cbn in Hm |- *.
  - destruct Hm as (a & Hab & Hrun). specialize (Hk a b Hab).
    destruct (kp b) as [d|e]; cbn in Hk |- *.
    + destruct Hk as (c & Hcd & Hrun'). exists c. split; [assumption|].
      intros h Hh. unfold mbind, M_bind. rewrite (Hrun h Hh). auto.
    + intros h Hh. unfold mbind, M_bind. rewrite (Hrun h Hh). auto.
  - intros h Hh. unfold mbind, M_bind. rewrite (Hm h Hh). reflexivity.
Qed.

Lemma reads_appends {A B} (R : A -> B -> Prop)
    (m : M A) (r : result B) (k : A -> loc -> M unit)
    (kp : B -> result (list (string * value))) :
  reads h0 R m r ->
  (forall a b, R a b -> appends h0 (k a) (kp b)) ->
  appends h0 (fun rl => a ← m; k a rl) (r ≫= kp).
Proof.
  intros Hm Hk. destruct r as [b|e]; cbn in Hm |- *.
  - destruct Hm as (a & Hab & Hrun). specialize (Hk a b Hab).
    destruct (kp b) as [d|e]; cbn in Hk |- *.
    + destruct Hk as (c & Hcd & Hrun'). exists c. split; [assumption|].
      intros rl h refs Hh Hr. unfold mbind, M_bind. rewrite (Hrun h Hh). eauto.
    + intros rl h refs Hh Hr. unfold mbind, M_bind. rewrite (Hrun h Hh). eauto.
  - intros rl h refs Hh Hr. unfold mbind, M_bind. rewrite (Hm h Hh). reflexivity.
Qed.

Lemma reads_ret {A B} (R : A -> B -> Prop) (a : A) (b : B) :
  R a b -> reads h0 R (mret a) (Ok b).
Proof. intros H. exists a. split; [assumption|]. reflexivity. Qed.

Lemma reads_lift {A} (r : result A) : reads h0 eq (lift r) r.
Proof.
  destruct r as [a|e]; cbn.
  - exists a. split; reflexivity.
  - reflexivity.
Qed.

Lemma represents_scalar (J : value) (v : hval) :
  represents h0 J v ->
  match v with
  | HRef _ => match J with VList _ | VDict _ => True | _ => False end
  | _ => scalar v = J
  end.
Proof.
  destruct J; cbn; try (intros ->; reflexivity).
  - intros (l & vs & -> & _). exact I.
  - intros (l & hd & -> & _). exact I.
Qed.

Lemma eq_str_sim (J : value) (v : hval) (s : string) :
  represents h0 J v -> Heap.eq_str v s = Py.eq_str J s.
Proof.
  intros H. apply represents_scalar in H. unfold Heap.eq_str.
  destruct v; try (rewrite H; reflexivity).
  destruct J; try contradiction; reflexivity.
Qed.

Lemma is_True_sim (J : value) (v : hval) :
  represents h0 J v -> Heap.is_True v = Py.is_True J.
Proof.
  intros H. apply represents_scalar in H. unfold Heap.is_True.
  destruct v; try (rewrite H; reflexivity).
  destruct J; try contradiction; reflexivity.
Qed.

Lemma is_False_sim (J : value) (v : hval) :
  represents h0 J v -> Heap.is_False v = Py.is_False J.
Proof.
  intros H. apply represents_scalar in H. unfold Heap.is_False.
  destruct v; try (rewrite H; reflexivity).
  destruct J; try contradiction; reflexivity.
Qed.

Lemma lookup_sim (d : list (string * value)) (hd : list (string * hval)) (k : string) :
  all2 (fun (e : string * value) (c : string * hval) =>
          fst e = fst c /\ represents h0 (snd e) (snd c)) d hd ->
  match Py.lookup_key k d with
  | Some J => exists v, Heap.lookup_key k hd = Some v /\ represents h0 J v
  | None => Heap.lookup_key k hd = None
  end.
Proof.
  revert hd. induction d as [|[k1 J1] d IH]; intros [|[k2 v2] hd]; cbn;
    try contradiction; [reflexivity|].
  intros [[<- H1] Hrest].
  destruct (String.eqb k1 k); [eauto | apply IH, Hrest].
Qed.

Lemma deref_weaken (h : heap) (l : loc) (o : obj) :
  h0 !! l = Some o -> h0 ⊆ h -> deref l h = (Done o, h).
Proof.
  intros Hl Hh. unfold deref. rewrite (lookup_weaken _ _ _ _ Hl Hh). reflexivity.
Qed.

Lemma getitem_sim (J : value) (v : hval) (k : string) :
  represents h0 J v ->
  reads h0 (fun v' J' => represents h0 J' v') (Heap.getitem v k) (Py.getitem J k).
Proof.
  destruct J as [| | | | |Js|d]; cbn [represents];
    try (intros ->; cbn; reflexivity).
  - intros (l & vs & -> & Hl & _). cbn. intros h Hh.
    unfold mbind, M_bind. rewrite (deref_weaken h l _ Hl Hh). reflexivity.
  - intros (l & hd & -> & Hl & Hall).
    pose proof (lookup_sim d hd k Hall) as Hk.
    unfold Py.getitem, Heap.getitem.
    destruct (Py.lookup_key k d) as [J'|]; cbn.
    + destruct Hk as (v' & Hv' & Hrep). exists v'. split; [assumption|].
      intros h Hh. unfold mbind, M_bind.
      rewrite (deref_weaken h l _ Hl Hh), Hv'. reflexivity.
    + intros h Hh. unfold mbind, M_bind.
      rewrite (deref_weaken h l _ Hl Hh), Hk. reflexivity.
Qed.

Lemma get_sim (J : value) (v : hval) (k : string) (Jd : value) (vd : hval) :
  represents h0 J v ->
  represents h0 Jd vd ->
  reads h0 (fun v' J' => represents h0 J' v') (Heap.get v k vd) (Py.get J k Jd).
Proof.
  intros HJ Hd.
  destruct J as [| | | | |Js|d]; cbn [represents] in HJ;
    try (rewrite HJ; cbn; reflexivity).
  - destruct HJ as (l & vs & -> & Hl & _). cbn. intros h Hh.
    unfold mbind, M_bind. rewrite (deref_weaken h l _ Hl Hh). reflexivity.
  - destruct HJ as (l & hd & -> & Hl & Hall).
    pose proof (lookup_sim d hd k Hall) as Hk.
    unfold Py.get, Heap.get. cbn [reads].
    destruct (Py.lookup_key k d) as [J'|]; cbn [default].
    + destruct Hk as (v' & Hv' & Hrep). exists v'. split; [assumption|].
      intros h Hh. unfold mbind, M_bind.
      rewrite (deref_weaken h l _ Hl Hh), Hv'. reflexivity.
    + exists vd. split; [assumption|].
      intros h Hh. unfold mbind, M_bind.
      rewrite (deref_weaken h l _ Hl Hh), Hk. reflexivity.
Qed.

Lemma all2_nil_iff {A B} (R : A -> B -> Prop) (xs : list A) (ys : list B) :
  all2 R xs ys -> (xs = [] <-> ys = []).
Proof. destruct xs, ys; cbn; intros H; try contradiction; split; congruence. Qed.

Lemma view_sim (J : value) (v : hval) :
  represents h0 J v -> reads h0 alike (view v) (Ok J).
Proof.
  destruct J as [| | | | |Js|d]; cbn [represents];
    try (intros ->; eexists; split; [|reflexivity]; reflexivity).
  - intros (l & vs & -> & Hl & Hall). exists (shell (OList vs)). split.
    + destruct Js, vs; cbn in Hall |- *; try contradiction; reflexivity.
    + intros h Hh. cbn. unfold mbind, M_bind.
      rewrite (deref_weaken h l _ Hl Hh). reflexivity.
  - intros (l & hd & -> & Hl & Hall). exists (shell (ODict hd)). split.
    + destruct d, hd; cbn in Hall |- *; try contradiction; reflexivity.
    + intros h Hh. cbn. unfold mbind, M_bind.
      rewrite (deref_weaken h l _ Hl Hh). reflexivity.
Qed.

Lemma alike_truthy (x J : value) : alike x J -> truthy x = truthy J.
Proof.
  destruct J as [| | | | |[|? ?]|[|? ?]]; cbn; intros ->; reflexivity.
Qed.

Lemma alike_format (n : nat) (x J : value) :
  alike x J -> Builtins.format_spec_f n x = Builtins.format_spec_f n J.
Proof.
  destruct J as [| | | | |[|? ?]|[|? ?]]; cbn; intros ->; reflexivity.
Qed.

Lemma alike_upper (x J : value) :
  alike x J -> Builtins.call_upper x = Builtins.call_upper J.
Proof.
  destruct J as [| | | | |[|? ?]|[|? ?]]; cbn; intros ->; reflexivity.
Qed.

Lemma py_or_sim (Ja Jb : value) (a b : hval) :
  represents h0 Ja a -> represents h0 Jb b ->
  reads h0 (fun v J => represents h0 J v) (Heap.py_or a b) (Ok (Py.py_or Ja Jb)).
Proof.
  intros Ha Hb. unfold Heap.py_or.
  change (Ok (Py.py_or Ja Jb))
    with (Ok Ja ≫= fun J => Ok (if truthy J then Ja else Jb)).
  eapply reads_bind; [apply view_sim, Ha|].
  intros x J Hx. cbv beta. rewrite (alike_truthy x J Hx).
  apply reads_ret. destruct (truthy J); assumption.
Qed.

Lemma format_sim (n : nat) (J : value) (v : hval) :
  represents h0 J v ->
  reads h0 eq (Heap.format_spec_f n v) (Builtins.format_spec_f n J).
Proof.
  intros H. unfold Heap.format_spec_f.
  change (Builtins.format_spec_f n J)
    with (Ok J ≫= fun J' => Builtins.format_spec_f n J').
  eapply reads_bind; [apply view_sim, H|].
  intros x J' Hx. cbv beta. rewrite (alike_format n x J' Hx). apply reads_lift.
Qed.

Lemma upper_sim (J : value) (v : hval) :
  represents h0 J v ->
  reads h0 (fun v' J' => represents h0 J' v') (Heap.call_upper v)
    (Builtins.call_upper J).
Proof.
  intros H. unfold Heap.call_upper.
  change (Builtins.call_upper J) with (Ok J ≫= fun J' => Builtins.call_upper J').
  eapply reads_bind; [apply view_sim, H|].
  intros x J' Hx. cbv beta. rewrite (alike_upper x J' Hx).
  destruct J'; cbn; try reflexivity.
  eexists. split; [|reflexivity]. reflexivity.
Qed.

Lemma reads_appends_ok {A B} (R : A -> B -> Prop)
    (m : M A) (b : B) (k : A -> loc -> M unit)
    (r : result (list (string * value))) :
  reads h0 R m (Ok b) ->
  (forall a, R a b -> appends h0 (k a) r) ->
  appends h0 (fun rl => a ← m; k a rl) r.
Proof.
  intros Hm Hk. cbn in Hm. destruct Hm as (a & Hab & Hrun).
  specialize (Hk a Hab). destruct r as [row|e]; cbn in Hk |- *.
  - destruct Hk as (cells & Hc & Hrun'). exists cells. split; [assumption|].
    intros rl h refs Hh Hr. unfold mbind, M_bind. rewrite (Hrun h Hh). eauto.
  - intros rl h refs Hh Hr. unfold mbind, M_bind. rewrite (Hrun h Hh). eauto.
Qed.

Lemma alloc_append (cells : list (string * hval)) (row : list (string * value)) :
  cells_represent h0 cells row ->
  appends h0 (fun rl => r ← alloc (ODict cells); append (HRef rl) r) (Ok row).
Proof.
  intros Hc. exists cells. split; [assumption|].
  intros rl h refs Hh Hr. unfold mbind, M_bind, alloc, append, appended.
  assert (Hne : fresh (dom h) <> rl).
  { intros E. pose proof (is_fresh (dom h)) as Hf. rewrite E in Hf.
    apply Hf. apply elem_of_dom. eauto. }
  rewrite lookup_insert_ne by assumption. rewrite Hr. reflexivity.
Qed.

(** One iteration over the store does what [App.prepare_row] computes. *)
Lemma body_sim (Jp : value) (param : hval) :
  represents h0 Jp param ->
  appends h0 (fun rl => HeapApp.loop_body (HRef rl) param) (App.prepare_row Jp).
Proof.
  intros Hp. unfold HeapApp.loop_body, App.prepare_row.
  eapply reads_appends; [apply getitem_sim, Hp|].
  intros status Jstatus Hstatus. cbv beta.
  rewrite (eq_str_sim _ _ _ Hstatus).
  destruct (Py.eq_str Jstatus "error").
  - eapply reads_appends; [apply getitem_sim, Hp|].
    intros name Jname Hname. cbv beta.
    eapply reads_appends; [apply get_sim; [exact Hp | reflexivity]|].
    intros err Jerr Herr. cbv beta.
    apply alloc_append. cbn. repeat split; assumption.
  - eapply reads_appends; [apply getitem_sim, Hp|].
    intros agreement Jagreement Hagreement. cbv beta zeta.
    rewrite (is_True_sim _ _ Hagreement), (is_False_sim _ _ Hagreement).
    eapply reads_appends; [apply getitem_sim, Hp|].
    intros name Jname Hname. cbv beta.
    eapply reads_appends; [apply get_sim; [exact Hp | reflexivity]|].
    intros mstatus Jmstatus Hmstatus. cbv beta.
    eapply reads_appends; [apply getitem_sim, Hp|].
    intros mtype Jmtype Hmtype. cbv beta.
    eapply reads_appends; [apply upper_sim, Hmtype|].
    intros mupper Jmupper Hmupper. cbv beta.
    eapply reads_appends; [apply getitem_sim, Hp|].
    intros prediction Jprediction Hprediction. cbv beta.
    eapply reads_appends; [apply getitem_sim, Hp|].
    intros probability Jprobability Hprobability. cbv beta.
    eapply reads_appends; [apply format_sim, Hprobability|].
    intros text Jtext <-. cbv beta.
    eapply reads_appends; [apply getitem_sim, Hp|].
    intros confidence Jconfidence Hconfidence. cbv beta.
    eapply reads_appends; [apply getitem_sim, Hp|].
    intros raw Jraw Hraw. cbv beta.
    eapply reads_appends_ok;
      [apply (py_or_sim Jraw (VStr "N/A") raw (HStr "N/A") Hraw); reflexivity|].
    intros truth Htruth. cbv beta.
    eapply reads_appends; [apply getitem_sim, Hp|].
    intros binary Jbinary Hbinary. cbv beta.
    eapply reads_appends_ok;
      [apply (py_or_sim Jbinary (VStr "N/A") binary (HStr "N/A") Hbinary); reflexivity|].
    intros gtb Hgtb. cbv beta.
    apply alloc_append. cbn. repeat split; trivial.
Qed.

Lemma truth_sim (J : value) (v : hval) :
  represents h0 J v -> reads h0 eq (truth v) (Ok (truthy J)).
Proof.
  intros H. unfold truth.
  change (Ok (truthy J)) with (Ok J ≫= fun J' => Ok (truthy J')).
  eapply reads_bind; [apply view_sim, H|].
  intros x J' Hx. cbv beta. rewrite (alike_truthy x J' Hx).
  apply reads_ret. reflexivity.
Qed.

Lemma badge_sim (J : value) (v : hval) :
  represents h0 J v ->
  reads h0 eq (HeapFormatting.get_agreement_badge v)
    (Ok (Formatting.get_agreement_badge J)).
Proof.
  intros H.
  unfold HeapFormatting.get_agreement_badge, Formatting.get_agreement_badge.
  change (Ok (if truthy J then "✅" else "❌"))
    with (Ok (truthy J) ≫= fun t : bool => Ok (if t then "✅" else "❌")).
  eapply reads_bind; [apply truth_sim, H|].
  intros t t' <-. apply reads_ret. reflexivity.
Qed.

Lemma existsb_sim (k : string) (Js : list value) (vs : list hval) :
  all2 (represents h0) Js vs ->
  existsb (fun x => Heap.eq_str x k) vs = existsb (fun x => Py.eq_str x k) Js.
Proof.
  revert vs. induction Js as [|J Js IH]; intros [|v vs]; cbn; try tauto.
  intros [Hv Hvs]. rewrite (eq_str_sim _ _ _ Hv), (IH _ Hvs). reflexivity.
Qed.

Lemma contains_sim (J : value) (v : hval) (k : string) :
  represents h0 J v ->
  reads h0 eq (Heap.contains k v) (Builtins.contains k J).
Proof.
  intros H. destruct J as [| | | |s|Js|d]; cbn [represents] in H.
  1-5: subst v; apply reads_lift.
  - destruct H as (l & vs & -> & Hl & Hall). cbn [Builtins.contains reads].
    eexists. split; [reflexivity|]. intros h Hh.
    cbn [Heap.contains]. unfold mbind, M_bind.
    rewrite (deref_weaken h l _ Hl Hh), (existsb_sim k Js vs Hall). reflexivity.
  - destruct H as (l & hd & -> & Hl & Hall).
    pose proof (lookup_sim d hd k Hall) as Hk.
    cbn [Builtins.contains reads].
    eexists. split; [reflexivity|]. intros h Hh.
    cbn [Heap.contains]. unfold mbind, M_bind.
    rewrite (deref_weaken h l _ Hl Hh).
    destruct (Py.lookup_key k d) as [J'|].
    + destruct Hk as (v' & -> & _). reflexivity.
    + rewrite Hk. reflexivity.
Qed.

(** [v.get(k, default)] whatever object the default is: it is handed over
    only when [v] is a dict without the key. *)
Lemma get_of_dict (d : list (string * value)) (v : hval) (k : string) :
  represents h0 (VDict d) v ->
  match Py.lookup_key k d with
  | Some J' =>
      exists v', represents h0 J' v'
                 /\ forall vd h, h0 ⊆ h -> Heap.get v k vd h = (Done v', h)
  | None => forall vd h, h0 ⊆ h -> Heap.get v k vd h = (Done vd, h)
  end.
Proof.
  intros (l & hd & -> & Hl & Hall).
  pose proof (lookup_sim d hd k Hall) as Hk.
  destruct (Py.lookup_key k d) as [J'|].
  - destruct Hk as (v' & Hv' & Hrep). exists v'. split; [assumption|].
    intros vd h Hh. unfold Heap.get, mbind, M_bind.
    rewrite (deref_weaken h l _ Hl Hh), Hv'. reflexivity.
  - intros vd h Hh. unfold Heap.get, mbind, M_bind.
    rewrite (deref_weaken h l _ Hl Hh), Hk. reflexivity.
Qed.

Lemma get_of_no_dict (J : value) (v : hval) (k : string) (Jd : value) (e : exn) :
  represents h0 J v ->
  Py.get J k Jd = Raise e ->
  forall vd h, h0 ⊆ h -> Heap.get v k vd h = (Raised e, h).
Proof.
  intros H E vd h Hh.
  destruct J as [| | | | |Js|d]; cbn [represents] in H;
    try (subst v; injection E as <-; reflexivity).
  - destruct H as (l & vs & -> & Hl & _). injection E as <-.
    unfold Heap.get, mbind, M_bind. rewrite (deref_weaken h l _ Hl Hh). reflexivity.
  - discriminate E.
Qed.

(** One iteration of the inference page over the store does what
    [InferencePage.params_row] computes. *)
Lemma params_body_sim (Jp : value) (param : hval) :
  represents h0 Jp param ->
  appends h0 (fun rl => HeapInferencePage.params_body (HRef rl) param)
    (InferencePage.params_row Jp).
Proof.
  intros Hp. unfold HeapInferencePage.params_body, InferencePage.params_row.
  eapply reads_appends; [apply get_sim; [exact Hp | reflexivity]|].
  intros status Jstatus Hstatus. cbv beta.
  rewrite (eq_str_sim _ _ _ Hstatus).
  destruct (Py.eq_str Jstatus "success").
  - eapply reads_appends; [apply get_sim; [exact Hp | reflexivity]|].
    intros name Jname Hname. cbv beta.
    eapply reads_appends; [apply get_sim; [exact Hp | reflexivity]|].
    intros mtype Jmtype Hmtype. cbv beta.
    eapply reads_appends; [apply upper_sim, Hmtype|].
    intros model Jmodel Hmodel. cbv beta.
    eapply reads_appends; [apply get_sim; [exact Hp | reflexivity]|].
    intros prediction Jprediction Hprediction. cbv beta.
    eapply reads_appends; [apply get_sim; [exact Hp | reflexivity]|].
    intros truth Jtruth Htruth. cbv beta.
    eapply reads_appends; [apply get_sim; [exact Hp | reflexivity]|].
    intros agreement Jagreement Hagreement. cbv beta.
    eapply reads_appends_ok; [apply badge_sim, Hagreement|].
    intros badge ->. cbv beta.
    eapply reads_appends; [apply get_sim; [exact Hp | reflexivity]|].
    intros probability Jprobability Hprobability. cbv beta.
    eapply reads_appends; [apply format_sim, Hprobability|].
    intros text Jtext <-. cbv beta.
    apply alloc_append. cbn. repeat split; trivial.
  - eapply reads_appends; [apply get_sim; [exact Hp | reflexivity]|].
    intros name Jname Hname. cbv beta.
    apply alloc_append. cbn. repeat split; trivial.
Qed.

(** One iteration of the detail table. *)
Lemma table_body_sim (Jp : value) (param : hval) :
  represents h0 Jp param ->
  appends h0 (fun rl => HeapDetailView.table_body (HRef rl) param)
    (DetailView.table_row Jp).
Proof.
  intros Hp. unfold HeapDetailView.table_body, DetailView.table_row.
  eapply reads_appends; [apply get_sim; [exact Hp | reflexivity]|].
  intros agreement Jagreement Hagreement. cbv beta.
  eapply reads_appends; [apply get_sim; [exact Hp | reflexivity]|].
  intros pct Jpct Hpct. cbv beta.
  eapply reads_appends_ok; [apply badge_sim, Hagreement|].
  intros badge ->. cbv beta.
  do 7 (eapply reads_appends; [apply get_sim; [exact Hp | reflexivity]|];
        intros ? ? ?; cbv beta).
  apply alloc_append. cbn. repeat split; trivial.
Qed.

(** One iteration of the detail export. *)
Lemma export_body_sim (Jd : value) (details : hval) (Jp : value) (param : hval) :
  represents h0 Jd details ->
  represents h0 Jp param ->
  appends h0 (fun rl => HeapDetailPage.export_body details (HRef rl) param)
    (DetailPage.export_row Jd Jp).
Proof.
  intros Hd Hp. unfold HeapDetailPage.export_body, DetailPage.export_row.
  eapply reads_appends; [apply get_sim; [exact Hd | reflexivity]|].
  intros ? ? ?. cbv beta.
  do 9 (eapply reads_appends; [apply get_sim; [exact Hp | reflexivity]|];
        intros ? ? ?; cbv beta).
  apply alloc_append. cbn. repeat split; trivial.
Qed.

Lemma kept_refl (rl : loc) (h : heap) : kept rl h h.
Proof. intros l o _ H. exact H. Qed.

Lemma kept_trans (rl : loc) (h1 h2 h3 : heap) :
  kept rl h1 h2 -> kept rl h2 h3 -> kept rl h1 h3.
Proof. intros H12 H23 l o Hl H. apply H23, H12; assumption. Qed.

Lemma fresh_is_new (h : heap) : h !! fresh (dom h) = None.
Proof. apply not_elem_of_dom, is_fresh. Qed.

Lemma kept_appended (rl : loc) (cells : list (string * hval)) (refs : list hval)
    (h : heap) :
  kept rl h (appended rl cells refs h).
Proof.
  intros l o Hl H. unfold appended.
  rewrite lookup_insert_ne by congruence.
  rewrite lookup_insert_ne; [assumption|].
  intros E. rewrite <- E, fresh_is_new in H. discriminate.
Qed.

Lemma extends_appended (rl : loc) (cells : list (string * hval)) (refs : list hval)
    (h : heap) :
  h0 !! rl = None -> h0 ⊆ h -> h0 ⊆ appended rl cells refs h.
Proof.
  intros Hrl Hh. unfold appended.
  apply insert_subseteq_r; [assumption|].
  apply insert_subseteq_r; [|assumption].
  destruct (h0 !! fresh (dom h)) eqn:E; [|reflexivity].
  pose proof (lookup_weaken _ _ _ _ E Hh) as E'.
  rewrite fresh_is_new in E'. discriminate.
Qed.

Lemma loops_nil (m : loc -> M unit) :
  (forall rl h, h0 ⊆ h -> m rl h = (Done tt, h)) ->
  loops h0 m (Ok []).
Proof.
  intros Hm. exists []. split; [exact I|].
  intros rl h refs _ Hh Hr. exists h, []. rewrite app_nil_r.
  repeat split; auto using kept_refl.
Qed.

Lemma loops_cons (f : value -> result (list (string * value)))
    (J : value) (Js : list value) (first rest m : loc -> M unit) :
  appends h0 first (f J) ->
  loops h0 rest (for_each f Js) ->
  (forall rl h, h0 ⊆ h -> m rl h = (_ ← first rl; rest rl) h) ->
  loops h0 m (for_each f (J :: Js)).
Proof.
  intros Hfirst Hrest Hm. cbn [for_each].
  destruct (f J) as [row|e]; cbn in Hfirst.
  - destruct Hfirst as (cells & Hcells & Hrun).
    destruct (for_each f Js) as [rs|e]; cbn in Hrest |- *.
    + destruct Hrest as (cellss & Hcs & Hloop).
      exists (cells :: cellss). split; [split; assumption|].
      intros rl h refs Hrl Hh Hr.
      destruct (Hloop rl (appended rl cells refs h)
                  (refs ++ [HRef (fresh (dom h))])%list)
        as (h' & newrefs & Hrest & Hkept & Hrows & Hhold).
      { assumption. }
      { apply extends_appended; assumption. }
      { unfold appended. apply lookup_insert_eq. }
      exists h', (HRef (fresh (dom h)) :: newrefs).
      split; [|split; [|split]].
      * rewrite (Hm rl h Hh). unfold mbind, M_bind.
        rewrite (Hrun rl h refs Hh Hr). exact Hrest.
      * eapply kept_trans; [apply kept_appended | exact Hkept].
      * rewrite Hrows, <- app_assoc. reflexivity.
      * split; [|exact Hhold].
        exists (fresh (dom h)). split; [reflexivity|].
        apply Hkept.
        -- intros E. pose proof (fresh_is_new h) as Hf. rewrite E in Hf. congruence.
        -- unfold appended. rewrite lookup_insert_ne.
           ++ apply lookup_insert_eq.
           ++ intros E. pose proof (fresh_is_new h) as Hf. rewrite <- E in Hf.
              congruence.
    + intros rl h refs Hrl Hh Hr.
      destruct (Hrest rl (appended rl cells refs h)
                  (refs ++ [HRef (fresh (dom h))])%list)
        as (h' & refs' & Hrun' & Hkept & Hrows).
      { assumption. }
      { apply extends_appended; assumption. }
      { unfold appended. apply lookup_insert_eq. }
      exists h', refs'. split; [|split].
      * rewrite (Hm rl h Hh). unfold mbind, M_bind.
        rewrite (Hrun rl h refs Hh Hr). exact Hrun'.
      * eapply kept_trans; [apply kept_appended | exact Hkept].
      * exact Hrows.
  - cbn. intros rl h refs Hrl Hh Hr. exists h, refs.
    split; [|split; [apply kept_refl | exact Hr]].
    rewrite (Hm rl h Hh). unfold mbind, M_bind.
    rewrite (Hfirst rl h refs Hh Hr). reflexivity.
Qed.

Lemma loops_ext (m m' : loc -> M unit) (r : result (list (list (string * value)))) :
  (forall rl h, h0 ⊆ h -> m rl h = m' rl h) ->
  loops h0 m' r -> loops h0 m r.
Proof.
  intros E H. destruct r as [rs|e]; cbn in H |- *.
  - destruct H as (cellss & Hc & Hrun). exists cellss. split; [assumption|].
    intros rl h refs Hrl Hh Hr. rewrite (E rl h Hh). eauto.
  - intros rl h refs Hrl Hh Hr. rewrite (E rl h Hh). eauto.
Qed.

Lemma chars_represent (s : string) :
  all2 (represents h0) (Py.chars_of s) (Heap.chars_of s).
Proof. induction s; cbn; [exact I | split; [reflexivity | assumption]]. Qed.

Lemma keys_represent (d : list (string * value)) (hd : list (string * hval)) :
  all2 (fun (e : string * value) (c : string * hval) =>
          fst e = fst c /\ represents h0 (snd e) (snd c)) d hd ->
  all2 (represents h0) (map (fun kv => VStr (fst kv)) d)
       (map (fun kv => HStr (fst kv)) hd).
Proof.
  revert hd. induction d as [|e d IH]; intros [|c hd]; cbn; try tauto.
  intros [[-> _] H]. split; [reflexivity | apply IH, H].
Qed.

Lemma read_rows_hold (h : heap) (refs : list hval)
    (cellss : list (list (string * hval))) :
  rows_hold h refs cellss -> read_rows refs h = (Done cellss, h).
Proof.
  revert cellss. induction refs as [|ref refs IH]; intros [|cells cellss] H;
    cbn in H; try contradiction; [reflexivity|].
  destruct H as [(l & -> & Hl) Hrest]. cbn [read_rows].
  unfold mbind, M_bind, deref. rewrite Hl. rewrite (IH cellss Hrest). reflexivity.
Qed.

(** *** A loop that appends one row per element

    [body rows x] is the body of the loop, [f] the store-free function
    that computes the row of one element. *)
Section Loop.
Variable body : hval -> hval -> M unit.
Variable f : value -> result (list (string * value)).
Hypothesis body_ok :
  forall (Jp : value) (param : hval),
    represents h0 Jp param ->
    appends h0 (fun rl => body (HRef rl) param) (f Jp).

(** A loop over a fixed sequence of elements. *)
Lemma each_sim (Js : list value) (vs : list hval) :
  all2 (represents h0) Js vs ->
  loops h0 (fun rl => each (body (HRef rl)) vs) (for_each f Js).
Proof.
  revert vs. induction Js as [|J Js IH]; intros [|v vs] H; cbn in H;
    try contradiction.
  - apply loops_nil. reflexivity.
  - destruct H as [Hv Hvs].
    eapply loops_cons; [apply body_ok, Hv | apply IH, Hvs|].
    reflexivity.
Qed.

(** A loop through the iterator of the list at [pl], which belongs to the
    input. *)
Lemma walk_sim (pl : loc) (vs : list hval) :
  h0 !! pl = Some (OList vs) ->
  forall (Js : list value) (i fuel : nat),
    all2 (represents h0) Js (drop i vs) ->
    (length (drop i vs) < fuel)%nat ->
    loops h0 (fun rl => walk fuel (body (HRef rl)) pl i) (for_each f Js).
Proof.
  intros Hpl Js. induction Js as [|J Js IH]; intros i fuel H Hfuel.
  - destruct (drop i vs) as [|v rest] eqn:E; cbn in H; [|contradiction].
    destruct fuel as [|fuel]; [cbn in Hfuel; lia|].
    apply loops_nil. intros rl h Hh. cbn [walk]. unfold mbind, M_bind.
    rewrite (deref_weaken h pl _ Hpl Hh).
    assert (vs !! i = None) as ->; [|reflexivity].
    rewrite <- (Nat.add_0_r i), <- lookup_drop, E. reflexivity.
  - destruct (drop i vs) as [|v rest] eqn:E; cbn in H; [contradiction|].
    destruct H as [Hv Hrest].
    destruct fuel as [|fuel]; [cbn in Hfuel; lia|].
    assert (Hi : vs !! i = Some v).
    { rewrite <- (Nat.add_0_r i), <- lookup_drop, E. reflexivity. }
    assert (Hdrop : drop (S i) vs = rest).
    { pose proof (drop_S vs v i Hi) as Hd. rewrite E in Hd. congruence. }
    eapply loops_cons; [apply body_ok, Hv | apply (IH (S i) fuel)|].
    + rewrite Hdrop. exact Hrest.
    + rewrite Hdrop. cbn in Hfuel. lia.
    + intros rl h Hh. cbn [walk]. unfold mbind at 1, M_bind at 1.
      rewrite (deref_weaken h pl _ Hpl Hh), Hi. reflexivity.
Qed.

(** The [for] statement over whatever the input holds. *)
Lemma for_in_sim (J : value) (v : hval) :
  represents h0 J v ->
  loops h0 (fun rl => for_in v (body (HRef rl)))
    (params ← iterate J; for_each f params).
Proof.
  intros H.
  destruct J as [| | | |s|Js|d]; cbn [represents] in H.
  1-4: subst v; cbn; intros rl h refs _ _ Hr; exists h, refs;
       split; [reflexivity | split; [apply kept_refl | exact Hr]].
  - subst v. cbn [iterate mbind result_bind for_in]. apply each_sim, chars_represent.
  - destruct H as (pl & vs & -> & Hpl & Hall).
    cbn [iterate mbind result_bind].
    eapply loops_ext; [|apply (walk_sim pl vs Hpl Js 0 (S (length vs)))].
    + intros rl h Hh. cbn [for_in]. unfold mbind, M_bind.
      rewrite (deref_weaken h pl _ Hpl Hh). reflexivity.
    + exact Hall.
    + rewrite drop_0. lia.
  - destruct H as (pl & hd & -> & Hpl & Hall).
    cbn [iterate mbind result_bind].
    eapply loops_ext; [|apply each_sim, keys_represent, Hall].
    intros rl h Hh. cbn [for_in]. unfold mbind, M_bind.
    rewrite (deref_weaken h pl _ Hpl Hh). reflexivity.
Qed.

(** The loop, then the frame read off the list it filled. *)
Lemma gathered (J : value) (v : hval) :
  represents h0 J v ->
  gathers h0 (fun rl => _ ← for_in v (body (HRef rl)); DataFrame (HRef rl))
    (params ← iterate J; for_each f params).
Proof.
  intros H. pose proof (for_in_sim J v H) as L.
  destruct (params ← iterate J; for_each f params) as [df|e]; cbn in L |- *.
  - destruct L as (cellss & Hcs & Hloop). exists cellss. split; [exact Hcs|].
    intros rl h Hrl Hh Hr.
    destruct (Hloop rl h [] Hrl Hh Hr) as (h' & newrefs & Hfor & Hkept & Hrows & Hhold).
    exists h'. split; [|exact Hkept].
    unfold mbind, M_bind. rewrite Hfor.
    unfold DataFrame, mbind, M_bind, deref. rewrite Hrows. cbn [app].
    apply read_rows_hold, Hhold.
  - intros rl h Hrl Hh Hr.
    destruct (L rl h [] Hrl Hh Hr) as (h' & refs' & Hfor & Hkept & _).
    exists h'. split; [|exact Hkept].
    unfold mbind, M_bind. rewrite Hfor. reflexivity.
Qed.

End Loop.

Lemma extends_alloc (h : heap) (o : obj) :
  h0 ⊆ h -> h0 ⊆ <[fresh (dom h) := o]> h.
Proof.
  intros Hh. apply insert_subseteq_r; [|assumption].
  destruct (h0 !! fresh (dom h)) eqn:E; [|reflexivity].
  pose proof (lookup_weaken _ _ _ _ E Hh) as E'.
  rewrite fresh_is_new in E'. discriminate.
Qed.

Lemma kept_after_alloc (h h' : heap) (o : obj) :
  kept (fresh (dom h)) (<[fresh (dom h) := o]> h) h' -> h ⊆ h'.
Proof.
  intros Hk. apply map_subseteq_spec. intros l x Hl.
  assert (l <> fresh (dom h)).
  { intros ->. rewrite fresh_is_new in Hl. discriminate. }
  apply Hk; [assumption|]. rewrite lookup_insert_ne by congruence. exact Hl.
Qed.

Lemma fresh_unknown (h : heap) : h0 ⊆ h -> h0 !! fresh (dom h) = None.
Proof.
  intros Hh. destruct (h0 !! fresh (dom h)) eqn:E; [|reflexivity].
  pose proof (lookup_weaken _ _ _ _ E Hh) as E'.
  rewrite fresh_is_new in E'. discriminate.
Qed.

Lemma reads_gathers {A B} (R : A -> B -> Prop) (m : M A) (r : result B)
    (k : A -> loc -> M (list (list (string * hval))))
    (kp : B -> result (list (list (string * value)))) :
  reads h0 R m r ->
  (forall a b, R a b -> gathers h0 (k a) (kp b)) ->
  gathers h0 (fun rl => a ← m; k a rl) (r ≫= kp).
Proof.
  intros Hm Hk. destruct r as [b|e]; cbn in Hm |- *.
  - destruct Hm as (a & Hab & Hrun). specialize (Hk a b Hab).
    destruct (kp b) as [df|e]; cbn in Hk |- *.
    + destruct Hk as (hdf & Hc & Hrun'). exists hdf. split; [assumption|].
      intros rl h Hrl Hh Hr. unfold mbind, M_bind. rewrite (Hrun h Hh). eauto.
    + intros rl h Hrl Hh Hr. unfold mbind, M_bind. rewrite (Hrun h Hh). eauto.
  - intros rl h Hrl Hh Hr. exists h. unfold mbind, M_bind. rewrite (Hm h Hh).
    split; [reflexivity | apply kept_refl].
Qed.

(** The list that collects the rows is a new object. *)
Lemma alloc_gathers (m : hval -> M (list (list (string * hval))))
    (r : result (list (list (string * value)))) :
  gathers h0 (fun rl => m (HRef rl)) r ->
  refines h0 (same_rows h0) (rows ← alloc (OList []); m rows) r.
Proof.
  intros G. destruct r as [df|e]; cbn in G |- *.
  - destruct G as (hdf & Hc & Hrun). exists hdf. split; [exact Hc|].
    intros h Hh.
    destruct (Hrun (fresh (dom h)) (<[fresh (dom h) := OList []]> h))
      as (h' & Hm & Hkept).
    { apply fresh_unknown, Hh. }
    { apply extends_alloc, Hh. }
    { apply lookup_insert_eq. }
    exists h'. split; [exact Hm | eapply kept_after_alloc, Hkept].
  - intros h Hh.
    destruct (G (fresh (dom h)) (<[fresh (dom h) := OList []]> h))
      as (h' & Hm & Hkept).
    { apply fresh_unknown, Hh. }
    { apply extends_alloc, Hh. }
    { apply lookup_insert_eq. }
    exists h'. split; [exact Hm | eapply kept_after_alloc, Hkept].
Qed.

Lemma reads_refines {A B C D} (R : A -> B -> Prop) (S : C -> D -> Prop)
    (m : M A) (r : result B) (k : A -> M C) (kp : B -> result D) :
  reads h0 R m r ->
  (forall a b, R a b -> r = Ok b -> refines h0 S (k a) (kp b)) ->
  refines h0 S (m ≫= k) (r ≫= kp).
Proof.
  intros Hm Hk. destruct r as [b|e]; cbn in Hm |- *.
  - destruct Hm as (a & Hab & Hrun). specialize (Hk a b Hab eq_refl).
    destruct (kp b) as [d|e]; cbn in Hk |- *.
    + destruct Hk as (c & Hcd & Hrun'). exists c. split; [assumption|].
      intros h Hh. unfold mbind, M_bind. rewrite (Hrun h Hh). auto.
    + intros h Hh. unfold mbind, M_bind. rewrite (Hrun h Hh). auto.
  - intros h Hh. exists h. unfold mbind, M_bind. rewrite (Hm h Hh).
    split; reflexivity.
Qed.

Lemma reads_refines_ok {A B C D} (R : A -> B -> Prop) (S : C -> D -> Prop)
    (m : M A) (b : B) (k : A -> M C) (r : result D) :
  reads h0 R m (Ok b) ->
  (forall a, R a b -> refines h0 S (k a) r) ->
  refines h0 S (m ≫= k) r.
Proof.
  intros Hm Hk. cbn in Hm. destruct Hm as (a & Hab & Hrun).
  specialize (Hk a Hab). destruct r as [d|e]; cbn in Hk |- *.
  - destruct Hk as (c & Hcd & Hrun'). exists c. split; [assumption|].
    intros h Hh. unfold mbind, M_bind. rewrite (Hrun h Hh). auto.
  - intros h Hh. unfold mbind, M_bind. rewrite (Hrun h Hh). auto.
Qed.

Lemma reads_gathers_ok {A B} (R : A -> B -> Prop) (m : M A) (b : B)
    (k : A -> loc -> M (list (list (string * hval))))
    (r : result (list (list (string * value)))) :
  reads h0 R m (Ok b) ->
  (forall a, R a b -> gathers h0 (k a) r) ->
  gathers h0 (fun rl => a ← m; k a rl) r.
Proof.
  intros Hm Hk. cbn in Hm. destruct Hm as (a & Hab & Hrun).
  specialize (Hk a Hab). destruct r as [df|e]; cbn in Hk |- *.
  - destruct Hk as (hdf & Hc & Hrun'). exists hdf. split; [assumption|].
    intros rl h Hrl Hh Hr. unfold mbind, M_bind. rewrite (Hrun h Hh). eauto.
  - intros rl h Hrl Hh Hr. unfold mbind, M_bind. rewrite (Hrun h Hh). eauto.
Qed.

Lemma refines_ret {A B} (R : A -> B -> Prop) (a : A) (b : B) :
  R a b -> refines h0 R (mret a) (Ok b).
Proof.
  intros H. exists a. split; [assumption|]. intros h Hh. exists h.
  split; reflexivity.
Qed.

Lemma refines_ext {A B} (R : A -> B -> Prop) (m m' : M A) (r : result B) :
  (forall h, m h = m' h) -> refines h0 R m' r -> refines h0 R m r.
Proof.
  intros E H. destruct r as [b|e]; cbn in H |- *.
  - destruct H as (a & Hab & Hrun). exists a. split; [assumption|].
    intros h Hh. rewrite E. auto.
  - intros h Hh. rewrite E. auto.
Qed.

Lemma refines_map {A B C D} (R : A -> B -> Prop) (S : C -> D -> Prop)
    (m : M A) (r : result B) (g : A -> C) (g' : B -> D) :
  refines h0 R m r ->
  (forall a b, R a b -> S (g a) (g' b)) ->
  refines h0 S (a ← m; mret (g a)) (b ← r; Ok (g' b)).
Proof.
  intros Hm Hg. destruct r as [b|e]; cbn in Hm |- *.
  - destruct Hm as (a & Hab & Hrun). exists (g a). split; [apply Hg, Hab|].
    intros h Hh. destruct (Hrun h Hh) as (h' & Hr & Hsub). exists h'.
    unfold mbind, M_bind. rewrite Hr. split; [reflexivity | assumption].
  - intros h Hh. destruct (Hm h Hh) as (h' & Hr & Hsub). exists h'.
    unfold mbind, M_bind. rewrite Hr. split; [reflexivity | assumption].
Qed.

(** [prepare_results_dataframe] over the store against the store-free
    one: the same rows, whatever else the store holds, and no object of
    the store changed. *)
Lemma prepare_sim (J : value) (results : hval) :
  represents h0 J results ->
  refines h0 (same_rows h0) (HeapApp.prepare_results_dataframe results)
    (App.prepare_results_dataframe J).
Proof.
  intros H. unfold App.prepare_results_dataframe, HeapApp.prepare_results_dataframe.
  apply (alloc_gathers
           (fun rows => parameters ← getitem results "parameters";
                        _ ← for_in parameters (HeapApp.loop_body rows);
                        DataFrame rows)).
  eapply reads_gathers; [apply getitem_sim, H|].
  intros vp Jp Hvp. cbv beta.
  apply (gathered HeapApp.loop_body App.prepare_row body_sim), Hvp.
Qed.

(** The table of the detail view. *)
Lemma table_sim (J : value) (parameters : hval) :
  represents h0 J parameters ->
  refines h0 (same_rows h0) (HeapDetailView.table_data parameters)
    (DetailView.table_data J).
Proof.
  intros H. unfold DetailView.table_data, HeapDetailView.table_data.
  apply (alloc_gathers
           (fun rows => _ ← for_in parameters (HeapDetailView.table_body rows);
                        DataFrame rows)).
  apply (gathered HeapDetailView.table_body DetailView.table_row table_body_sim), H.
Qed.

(** The table of the inference page. *)
Lemma params_sim (J : value) (result : hval) :
  represents h0 J result ->
  refines h0 (same_table h0) (HeapInferencePage.params_data result)
    (InferencePage.params_data J).
Proof.
  intros H. unfold InferencePage.params_data, HeapInferencePage.params_data.
  eapply reads_refines; [apply contains_sim, H|].
  intros present ? <- _. destruct present; [|apply refines_ret; exact I].
  eapply reads_refines; [apply getitem_sim, H|].
  intros guard Jp Hguard Eget. cbv beta.
  eapply reads_refines_ok; [apply truth_sim, Hguard|].
  intros nonempty ->. destruct (truthy Jp); [|apply refines_ret; exact I].
  eapply refines_ext with
    (m' := df ← (rows ← alloc (OList []);
                 parameters ← getitem result "parameters";
                 _ ← for_in parameters (HeapInferencePage.params_body rows);
                 DataFrame rows);
           mret (Some df)).
  { intros h. unfold mbind, M_bind, alloc. cbv beta zeta.
    destruct (getitem result "parameters" _) as [[vp| |] h1]; try reflexivity.
    destruct (for_in vp _ h1) as [[[]| |] h2]; reflexivity. }
  replace (params ← iterate Jp;
           rows ← for_each InferencePage.params_row params;
           Ok (Some rows))
    with (df ← (params ← iterate Jp; for_each InferencePage.params_row params);
          Ok (Some df))
    by (destruct (iterate Jp); reflexivity).
  apply refines_map with (R := same_rows h0); [|intros a b Hab; exact Hab].
  apply (alloc_gathers
           (fun rows => parameters ← getitem result "parameters";
                        _ ← for_in parameters (HeapInferencePage.params_body rows);
                        DataFrame rows)).
  eapply reads_gathers_ok; [rewrite <- Eget; apply getitem_sim, H|].
  intros vp Hvp. cbv beta.
  apply (gathered HeapInferencePage.params_body InferencePage.params_row
           params_body_sim), Hvp.
Qed.

(** The store after the two lists of the detail export were made. *)
Lemma after_two_allocs (h : heap) :
  h0 ⊆ h ->
  let rl := fresh (dom h) in
  let h1 := <[rl := OList []]> h in
  let dl := fresh (dom h1) in
  let h2 := <[dl := OList []]> h1 in
  h0 !! rl = None /\ h0 ⊆ h2 /\ h2 !! rl = Some (OList [])
  /\ h2 !! dl = Some (OList []) /\ h ⊆ h2
  /\ forall h', kept rl h2 h' -> h ⊆ h'.
Proof.
  intros Hh rl h1 dl h2.
  assert (Hrl : h !! rl = None) by apply fresh_is_new.
  assert (Hdl : h1 !! dl = None) by apply fresh_is_new.
  assert (Hne : dl <> rl).
  { intros E. unfold h1 in Hdl. rewrite E, lookup_insert_eq in Hdl. discriminate. }
  assert (H12 : h ⊆ h2).
  { etransitivity; [apply (insert_subseteq h rl), Hrl|].
    apply (insert_subseteq h1 dl), Hdl. }
  split; [apply fresh_unknown, Hh|].
  split; [etransitivity; eassumption|].
  split; [unfold h2, h1; rewrite lookup_insert_ne by assumption; apply lookup_insert_eq|].
  split; [apply lookup_insert_eq|].
  split; [exact H12|].
  intros h' Hk. apply map_subseteq_spec. intros l x Hl.
  apply Hk.
  - intros ->. rewrite Hrl in Hl. discriminate.
  - eapply lookup_weaken; eassumption.
Qed.

(** The rows of the detail export. *)
Lemma export_sim (J : value) (details : hval) :
  represents h0 J details ->
  refines h0 (same_rows h0) (HeapDetailPage.export_data details)
    (DetailPage.export_data J).
Proof.
  intros H. unfold DetailPage.export_data, HeapDetailPage.export_data.
  destruct (Py.get J "parameters" (VList [])) as [Jp|e] eqn:Eget.
  - destruct J as [| | | | | |d]; try discriminate Eget.
    cbn [mbind result_bind].
    pose proof (get_of_dict d details "parameters" H) as Hget.
    unfold Py.get in Eget. injection Eget as <-.
    destruct (Py.lookup_key "parameters" d) as [Jp|]; cbn [default].
    + destruct Hget as (vp & Hvp & Hget).
      pose proof (gathered (HeapDetailPage.export_body details)
                    (DetailPage.export_row (VDict d))
                    (fun Jp' param => export_body_sim (VDict d) details Jp' param H)
                    Jp vp Hvp) as G.
      match type of G with
      | gathers _ ?m _ =>
          match goal with
          | |- refines _ _ _ ?r => change (gathers h0 m r) in G; destruct r as [df|e]
          end
      end; cbn in G |- *.
      * destruct G as (hdf & Hc & Hrun). exists hdf. split; [exact Hc|].
        intros h Hh.
        destruct (after_two_allocs h Hh) as (Hrl & H02 & Hrows & _ & _ & Hback).
        destruct (Hrun _ _ Hrl H02 Hrows) as (h' & Hfor & Hkept).
        exists h'. split; [|apply Hback, Hkept].
        unfold mbind, M_bind, alloc. cbv beta zeta.
        rewrite (Hget _ _ H02). exact Hfor.
      * intros h Hh.
        destruct (after_two_allocs h Hh) as (Hrl & H02 & Hrows & _ & _ & Hback).
        destruct (G _ _ Hrl H02 Hrows) as (h' & Hfor & Hkept).
        exists h'. split; [|apply Hback, Hkept].
        unfold mbind, M_bind, alloc. cbv beta zeta.
        rewrite (Hget _ _ H02). exact Hfor.
    + cbn. exists []. split; [exact I|]. intros h Hh.
      destruct (after_two_allocs h Hh) as (_ & H02 & Hrows & Hdflt & Hsub & _).
      eexists. split; [|exact Hsub].
      unfold mbind, M_bind, alloc. cbv beta zeta.
      rewrite (Hget _ _ H02).
      unfold for_in, mbind, M_bind, deref. rewrite Hdflt.
      cbn [walk length]. unfold mbind, M_bind, deref. rewrite Hdflt.
      cbn [lookup list_lookup]. unfold mret, M_ret.
      unfold DataFrame, mbind, M_bind, deref. rewrite Hrows. reflexivity.
  - cbn [mbind result_bind]. intros h Hh.
    destruct (after_two_allocs h Hh) as (_ & H02 & _ & _ & Hsub & _).
    eexists. split; [|exact Hsub].
    unfold mbind, M_bind, alloc. cbv beta zeta.
    rewrite (get_of_no_dict J details "parameters" _ e H Eget _ _ H02). reflexivity.
Qed.

End Store.

Section Unchanged.
Import Heap.

Lemma all2_impl {A B} (R S : A -> B -> Prop) (xs : list A) (ys : list B) :
  Forall (fun x => forall y, R x y -> S x y) xs ->
  all2 R xs ys -> all2 S xs ys.
Proof.
  intros H. revert ys. induction H as [|x xs Hx _ IH]; intros [|y ys]; cbn; trivial.
  intros [Hxy Hrest]. split; [apply Hx, Hxy | apply IH, Hrest].
Qed.

(** A document held by a store is held by every store that extends
    it. *)
Lemma represents_mono (h h' : heap) :
  h ⊆ h' -> forall J v, represents h J v -> represents h' J v.
Proof.
  intros Hsub. fix IH 1. intros J v.
  destruct J as [| | | | |Js|d]; cbn [represents]; trivial.
  - intros (l & vs & -> & Hl & Hall). exists l, vs.
    split; [reflexivity|]. split; [eapply lookup_weaken; eassumption|].
    revert Hall. apply all2_impl.
    induction Js as [|J Js IHJs]; constructor; [apply IH | exact IHJs].
  - intros (l & hd & -> & Hl & Hall). exists l, hd.
    split; [reflexivity|]. split; [eapply lookup_weaken; eassumption|].
    revert Hall. apply all2_impl.
    induction d as [|[k J] d IHd]; constructor; [|exact IHd].
    intros c [Hk Hc]. split; [exact Hk | apply IH, Hc].
Qed.

Lemma refines_unaffected {A B} (h0 : heap) (R : A -> B -> Prop)
    (run : M A) (r : result B) :
  refines h0 R run r -> Spec.unaffected h0 R run r.
Proof.
  intros H. unfold Spec.unaffected. destruct r as [b|e]; cbn in H.
  - destruct H as (a & Hab & Hrun). exists (Done a). split; [eauto|].
    intros h Hh.
    destruct (Hrun h Hh) as (h' & Hfirst & Hsub).
    destruct (Hrun h' (transitivity Hh Hsub)) as (h'' & Hsecond & Hsub').
    exists h', h''. repeat split; assumption.
  - exists (Raised e). split; [reflexivity|]. intros h Hh.
    destruct (H h Hh) as (h' & Hfirst & Hsub).
    destruct (H h' (transitivity Hh Hsub)) as (h'' & Hsecond & Hsub').
    exists h', h''. repeat split; assumption.
Qed.

(** C9.  Row shaping is deterministic, repeatable and free of side
    effects, in each of the four places that shape rows: the legacy
    [prepare_results_dataframe], the parameters table of the inference
    page, the table of the detail view and the export loop of the detail
    page.  Let the store [h0] hold the document [J] under the name [v].
    Then for each of them one outcome, fixed by [J] (the rows the
    store-free function computes from [J], or the exception it raises), is
    what every invocation on [v] produces: in any store [h] that extends
    [h0] (whatever else it holds: session state, widgets, the objects of
    an earlier render) the call ends with that outcome and leaves every
    object of [h] as it was, and a second call in the resulting store ends
    with it again.  The name [v] holds [J] in every such store, hence
    after every call. *)
Theorem row_shaping_is_pure (h0 : heap) (J : value) (v : hval) :
  represents h0 J v ->
  Spec.unaffected h0 (same_rows h0)
    (HeapApp.prepare_results_dataframe v) (App.prepare_results_dataframe J)
  /\ Spec.unaffected h0 (same_table h0)
       (HeapInferencePage.params_data v) (InferencePage.params_data J)
  /\ Spec.unaffected h0 (same_rows h0)
       (HeapDetailView.table_data v) (DetailView.table_data J)
  /\ Spec.unaffected h0 (same_rows h0)
       (HeapDetailPage.export_data v) (DetailPage.export_data J)
  /\ forall h, h0 ⊆ h -> represents h J v.
Proof.
  intros H.
  split; [apply refines_unaffected, prepare_sim, H|].
  split; [apply refines_unaffected, params_sim, H|].
  split; [apply refines_unaffected, table_sim, H|].
  split; [apply refines_unaffected, export_sim, H|].
  intros h Hh. eapply represents_mono; eassumption.
Qed.

Lemma row_shaping_is_pure_witness :
  represents Samples.detail_store Samples.abc123 Samples.document
  /\ exists rows h',
       HeapDetailPage.export_data Samples.document Samples.detail_store
       = (Done rows, h')
       /\ DetailPage.export_data Samples.abc123 = Ok (Samples.plain rows)
       /\ Samples.detail_store ⊆ h'
       /\ represents h' Samples.abc123 Samples.document.
Proof.
  assert (H : represents Samples.detail_store Samples.abc123 Samples.document)
    by (vm_compute; repeat (eexists || split)).
  split; [exact H|].
  destruct (row_shaping_is_pure _ _ _ H) as (_ & _ & _ & (out & Hout & Hrun) & Hkeeps).
  destruct (Hrun Samples.detail_store (reflexivity _)) as (h' & _ & H1 & H2 & _ & _).
  destruct (HeapDetailPage.export_data Samples.document Samples.detail_store)
    as [[rows| |] h1] eqn:E; try (vm_compute in E; discriminate).
  exists rows, h1. injection H1 as _ <-.
  split; [reflexivity|].
  split; [vm_compute in E; injection E as <- _; vm_compute; reflexivity|].
  split; [exact H2 | apply Hkeeps, H2].
Defined.

(** The four runs on the sample stores, computed: the cells of the rows,
    and the input objects at their addresses afterwards. *)
Lemma sample_run :
  match HeapApp.prepare_results_dataframe Samples.document Samples.store with
  | (Done rows, h') =>
      map (fun r => (Heap.lookup_key "Agreement" r, Heap.lookup_key "Probability" r)) rows
      = [(Some (HStr "✅"), Some (HStr "0.812")); (Some (HStr "🔴"), Some (HStr "-"))]
      /\ map (fun l => h' !! l) [1; 2; 3; 4]%positive
         = map (fun l => Samples.store !! l) [1; 2; 3; 4]%positive
  | _ => False
  end
  /\ match HeapInferencePage.params_data Samples.document Samples.detail_store with
     | (Done (Some rows), h') =>
         map (fun r => (Heap.lookup_key "Agreement" r, Heap.lookup_key "Probability" r)) rows
         = [(Some (HStr "✅"), Some (HStr "0.812")); (Some (HStr "-"), Some (HStr "-"))]
         /\ map (fun l => h' !! l) [1; 2; 3; 4]%positive
            = map (fun l => Samples.detail_store !! l) [1; 2; 3; 4]%positive
     | _ => False
     end
  /\ match HeapDetailView.table_data (HRef 3) Samples.detail_store with
     | (Done rows, h') =>
         map (fun r => (Heap.lookup_key "Agreement" r, Heap.lookup_key "Probability" r)) rows
         = [(Some (HStr "✅"), Some (HFloat Samples.p0812));
            (Some (HStr "❌"), Some (HInt 0))]
         /\ map (fun l => h' !! l) [1; 2; 3; 4]%positive
            = map (fun l => Samples.detail_store !! l) [1; 2; 3; 4]%positive
     | _ => False
     end
  /\ match HeapDetailPage.export_data Samples.document Samples.detail_store with
     | (Done rows, h') =>
         map (fun r => (Heap.lookup_key "Submission ID" r, Heap.lookup_key "Probability" r)) rows
         = [(Some (HStr "abc123"), Some (HFloat Samples.p0812));
            (Some (HStr "abc123"), Some HNone)]
         /\ map (fun l => h' !! l) [1; 2; 3; 4]%positive
            = map (fun l => Samples.detail_store !! l) [1; 2; 3; 4]%positive
     | _ => False
     end.
Proof. vm_compute. repeat split; reflexivity. Qed.

End Unchanged.

(* ===================================================================== *)
(** * Part III: further properties of the client and the pages *)
(* ===================================================================== *)

(** ** The listing of tracked submissions *)
Section Submissions.
Import ApiClient Spec.
Variable net : network.
Variable self : InferenceAPIClient.


End Submissions.

(** ** What a button press does to the session *)
Section Sessions.
Import ApiClient Spec Streamlit.
Variable net : network.
Variable self : InferenceAPIClient.




End Sessions.

(** ** The two tabs of the detail page *)
Section Disagreements.
Import Table Spec DetailView Streamlit.











End Disagreements.

(** ** The base URL *)
Section BaseUrl.
Import ApiClient Spec.







End BaseUrl.

(** ** The submissions table: indicator and colour *)
Section StatusColour.
Import Spec Formatting Tables.


End StatusColour.

(** ** The legacy page *)
Section Legacy.
Import ApiClient Spec Streamlit LegacyPage Table.



Variable net : network.


(** *** The selector *)

Variable repr_of : value -> string.






End Legacy.


